(** * openstack_control: lifecycle operations against a remote cloud API

    A shallow embedding of [openstack_control.py].  The script talks to the
    outside world (the nova and glance clients, [time.sleep], the [ping]
    child process, the local file system, standard output) and waits in
    [while] loops that have no bound.  The embedding therefore has

    - an environment [Env]: for every kind of external call, the answer the
      world gives to the k-th call of that kind (a value or a raised
      exception);
    - a world state [World]: how many calls of each kind were made, and the
      chronological log of everything the script did;
    - a small monad [M] over that state whose outcomes are "returned",
      "raised" and "still running" (a loop that used up its fuel). *)

From Stdlib Require Import String ZArith List Bool Arith Lia.
Import ListNotations.

Open Scope string_scope.
Open Scope list_scope.
Open Scope Z_scope.

(** ** Python values the script handles *)

(** The exceptions the script names, and everything else the clients or the
    operating system may raise. *)
Inductive exn : Type :=
| TypeError
| IndexError
| NotFound                      (* novaclient.exceptions.NotFound *)
| CalledProcessError
| OtherError (what : string).

Definition is_TypeError (e : exn) : bool :=
  match e with TypeError => true | _ => false end.

Definition is_NotFound (e : exn) : bool :=
  match e with NotFound => true | _ => false end.

(** The answer of an external call. *)
Inductive result (A : Type) : Type :=
| Ok (a : A)
| Err (e : exn).
Arguments Ok {A} a.
Arguments Err {A} e.

(** A nova server, with the entries of [server.to_dict()] that [vm_status]
    reads.  ['addresses'] is a dict from network label to a list of address
    entries; it is kept as an association list in the order [keys()]
    reports, each entry reduced to its ['addr']. *)
Record Server : Type := mkServer {
  srv_id : string;
  srv_status : string;
  srv_power_state : Z;
  srv_addresses : list (string * list string)
}.

(** The dictionary [vm_status] builds. *)
Record StatusDict : Type := mkStatus {
  sd_server : Server;
  sd_id : string;
  sd_name : string;
  sd_status : string;
  sd_power_state : Z;
  sd_network : string * string
}.

(** ** External calls *)

Inductive finder : Type := Networks | Images | Flavors.

(** Calls that change the remote side. *)
Inductive mutation : Type :=
| ServersCreate (name image flavor net_id key_name : string)
| ServerDelete (id : string)
| ServerStop (id : string)
| ServerStart (id : string)
| GlanceCreate (name disk_format container_format hw_disk_bus : string)
| GlanceUpload (image_id data : string)
| GlanceDelete (image_id : string).

(** The world: the answer to the k-th call of each kind.  A mutation answers
    with the identifier of what it made ([glance.images.create]) or with the
    empty string. *)
Record Env : Type := mkEnv {
  servers_list : string -> nat -> result (list Server);
  nova_find : finder -> string -> nat -> result string;
  mutate : mutation -> nat -> result string;
  ping_exit : string -> nat -> result Z;
  open_file : string -> nat -> result string
}.

(** What the script did, in order. *)
Inductive event : Type :=
| EQuery (name : string) (r : result (list Server))
| EFind (f : finder) (name : string) (r : result string)
| EMutate (m : mutation) (r : result string)
| EPing (ip : string) (r : result Z)
| EOpen (path : string) (r : result string)
| ESleep (secs : Z)
| EPrint (line : string)
| EPrintField (key : string) (sd : StatusDict)
| EPrintHelp.

Record World : Type := mkWorld {
  n_query : nat;
  n_find : nat;
  n_mut : nat;
  n_ping : nat;
  n_open : nat;
  trace : list event
}.

Definition world0 : World := mkWorld 0 0 0 0 0 [].

(** ** The monad *)

Inductive outcome (A : Type) : Type :=
| Returned (a : A) (w : World)
| Raised (e : exn) (w : World)
| Running (w : World).
Arguments Returned {A} a w.
Arguments Raised {A} e w.
Arguments Running {A} w.

Definition M (A : Type) : Type := World -> outcome A.

Definition ret {A} (a : A) : M A := fun w => Returned a w.
Definition raise {A} (e : exn) : M A := fun w => Raised e w.

Definition bind {A B} (m : M A) (k : A -> M B) : M B :=
  fun w =>
    match m w with
    | Returned a w1 => k a w1
    | Raised e w1 => Raised e w1
    | Running w1 => Running w1
    end.

(** [try: m  except <handles>: h] *)
Definition try_except {A} (m : M A) (handles : exn -> bool) (h : M A) : M A :=
  fun w =>
    match m w with
    | Raised e w1 => if handles e then h w1 else Raised e w1
    | o => o
    end.

Declare Scope py_scope.
Delimit Scope py_scope with py.
Notation "x <- m ;; k" := (bind m (fun x => k))
  (at level 61, m at next level, right associativity) : py_scope.
Notation "m ;; k" := (bind m (fun _ => k))
  (at level 61, right associativity) : py_scope.
Open Scope py_scope.

Definition lift {A} (r : result A) : M A :=
  match r with Ok a => ret a | Err e => raise e end.

Definition final {A} (o : outcome A) : World :=
  match o with Returned _ w | Raised _ w | Running w => w end.

(** The world after the script did [e]: the counter of that kind of call
    advances and [e] is appended to the log. *)
Definition record (e : event) (w : World) : World :=
  let t := trace w ++ [e] in
  match e with
  | EQuery _ _ => mkWorld (S (n_query w)) (n_find w) (n_mut w) (n_ping w) (n_open w) t
  | EFind _ _ _ => mkWorld (n_query w) (S (n_find w)) (n_mut w) (n_ping w) (n_open w) t
  | EMutate _ _ => mkWorld (n_query w) (n_find w) (S (n_mut w)) (n_ping w) (n_open w) t
  | EPing _ _ => mkWorld (n_query w) (n_find w) (n_mut w) (S (n_ping w)) (n_open w) t
  | EOpen _ _ => mkWorld (n_query w) (n_find w) (n_mut w) (n_ping w) (S (n_open w)) t
  | _ => mkWorld (n_query w) (n_find w) (n_mut w) (n_ping w) (n_open w) t
  end.

Definition is_mutation (e : event) : bool :=
  match e with EMutate _ _ => true | _ => false end.

Definition is_query (e : event) : bool :=
  match e with EQuery _ _ => true | _ => false end.

Definition is_sleep (e : event) : bool :=
  match e with ESleep _ => true | _ => false end.

Section Program.

Variable env : Env.

(** *** Primitive calls *)

(** [nova.servers.list(search_opts={'name': name})] *)
Definition nova_servers_list (name : string) : M (list Server) :=
  fun w =>
    let r := servers_list env name (n_query w) in
    lift r (record (EQuery name r) w).

(** [nova.networks.find], [nova.images.find], [nova.flavors.find]; the
    object found is identified by its [id]. *)
Definition nova_find_call (f : finder) (name : string) : M string :=
  fun w =>
    let r := nova_find env f name (n_find w) in
    lift r (record (EFind f name r) w).

Definition remote (m : mutation) : M string :=
  fun w =>
    let r := mutate env m (n_mut w) in
    lift r (record (EMutate m r) w).

(** [subprocess.check_call(['ping', '-c', '1', ip], stdout=devnull)]: the
    child's exit code is returned when it is zero, and
    [CalledProcessError] is raised otherwise. *)
Definition check_call_ping (ip : string) : M Z :=
  fun w =>
    let r := ping_exit env ip (n_ping w) in
    let w1 := record (EPing ip r) w in
    match r with
    | Ok rc => if rc =? 0 then Returned rc w1 else Raised CalledProcessError w1
    | Err e => Raised e w1
    end.

(** [open(path)]: the file object is identified with the bytes it yields. *)
Definition open_call (path : string) : M string :=
  fun w =>
    let r := open_file env path (n_open w) in
    lift r (record (EOpen path r) w).

Definition sleep (secs : Z) : M unit := fun w => Returned tt (record (ESleep secs) w).
Definition print (line : string) : M unit := fun w => Returned tt (record (EPrint line) w).

(** [d[key]] where [d] is what [vm_status] returned: subscripting [None]
    raises [TypeError]. *)
Definition subscript {A} (d : option StatusDict) (key : StatusDict -> A) : M A :=
  match d with
  | Some sd => ret (key sd)
  | None => raise TypeError
  end.

(** *** vm_status *)

(** The [try] block of [vm_status]: [networks.keys()[0]] and
    [networks[network_id][0]['addr']], either of which raises [IndexError]
    on an empty sequence. *)
Definition first_address (networks : list (string * list string))
  : result (string * string) :=
  match networks with
  | [] => Err IndexError
  | (network_id, addrs) :: _ =>
      match addrs with
      | [] => Err IndexError
      | ip :: _ => Ok (network_id, ip)
      end
  end.

Definition network_of (networks : list (string * list string)) : M (string * string) :=
  try_except (lift (first_address networks))
             (fun e => match e with IndexError => true | _ => false end)
             (ret ("", "")).

Definition vm_status (name : string) : M (option StatusDict) :=
  server <- nova_servers_list name ;;
  match server with
  | [] => ret None                                   (* if not server: return *)
  | server0 :: _ =>
      net <- network_of (srv_addresses server0) ;;
      ret (Some (mkStatus server0 (srv_id server0) name (srv_status server0)
                          (srv_power_state server0) net))
  end.

(** *** Control flow shared by the loops *)

(** [try: x = m  except <handles>: h] followed by [k x] when [m] raised
    nothing.  With [h] the next iteration of the enclosing loop this is
    [except ...: continue]. *)
Definition try_then {A B} (m : M A) (handles : exn -> bool) (h : M B) (k : A -> M B)
  : M B :=
  fun w =>
    match m w with
    | Returned a w1 => k a w1
    | Raised e w1 => if handles e then h w1 else Raised e w1
    | Running w1 => Running w1
    end.

Definition running {A} : M A := fun w => Running w.

(** *** vm_create *)

(** [while status != 'ACTIVE']: each unit of fuel pays for one run of the
    loop body. *)
Fixpoint vm_create_wait_active (fuel : nat) (name status : string) {struct fuel}
  : M unit :=
  if String.eqb status "ACTIVE" then ret tt
  else
    match fuel with
    | O => running
    | S fuel' =>
        try_then (d <- vm_status name ;; subscript d sd_status)
                 is_TypeError
                 (vm_create_wait_active fuel' name status)          (* continue *)
                 (fun status' => sleep 1 ;; vm_create_wait_active fuel' name status')
    end.

(** The [try] block of the second loop; its value is the new
    [ping_response].  Opening [os.devnull] is not modelled: the bare
    [except] would treat its failure like a failed ping. *)
Definition ping_attempt (name : string) (ping_response : bool) : M bool :=
  d <- vm_status name ;;
  net <- subscript d sd_network ;;
  response <- check_call_ping (snd net) ;;
  ret (if response =? 0 then true else ping_response).

(** [while ping_response is False] *)
Fixpoint vm_create_wait_ping (fuel : nat) (name : string) (ping_response : bool)
         {struct fuel} : M unit :=
  if ping_response then ret tt
  else
    match fuel with
    | O => running
    | S fuel' =>
        try_then (ping_attempt name ping_response)
                 (fun _ => true)                                    (* except: *)
                 (vm_create_wait_ping fuel' name ping_response)     (* continue *)
                 (fun ping_response' =>
                    sleep 2 ;; vm_create_wait_ping fuel' name ping_response')
    end.

Definition vm_create (fuel : nat) (name image key_pair flavor network : string)
  : M unit :=
  net_id <- nova_find_call Networks network ;;
  image <- nova_find_call Images image ;;
  flavor <- nova_find_call Flavors flavor ;;
  remote (ServersCreate name image flavor net_id key_pair) ;;
  vm_create_wait_active fuel name "" ;;
  vm_create_wait_ping fuel name false.

(** *** vm_delete *)

(** [while True: try: vm_status(name)['server'] except TypeError: return] *)
Fixpoint vm_delete_wait (fuel : nat) (name : string) {struct fuel} : M unit :=
  match fuel with
  | O => running
  | S fuel' =>
      try_then (d <- vm_status name ;; subscript d sd_server)
               is_TypeError
               (ret tt)                                             (* return *)
               (fun _ => vm_delete_wait fuel' name)
  end.

Definition vm_delete (fuel : nat) (name : string) : M unit :=
  try_except (d <- vm_status name ;;
              server <- subscript d sd_server ;;
              remote (ServerDelete (srv_id server)) ;;
              ret tt)
             is_TypeError
             (ret tt) ;;                                            (* pass *)
  vm_delete_wait fuel name.

(** *** vm_stop and vm_start *)

(** [while vm_status(name)['power_state'] == 1: time.sleep(1)] *)
Fixpoint vm_stop_wait (fuel : nat) (name : string) {struct fuel} : M unit :=
  match fuel with
  | O => running
  | S fuel' =>
      d <- vm_status name ;;
      power_state <- subscript d sd_power_state ;;
      if power_state =? 1 then sleep 1 ;; vm_stop_wait fuel' name else ret tt
  end.

Definition vm_stop (fuel : nat) (name : string) : M unit :=
  vm_info <- vm_status name ;;
  power_state <- subscript vm_info sd_power_state ;;
  if power_state =? 1 then
    server <- subscript vm_info sd_server ;;
    remote (ServerStop (srv_id server)) ;;
    vm_stop_wait fuel name
  else ret tt.

(** [while vm_status(name)['power_state'] != 1: time.sleep(1)] *)
Fixpoint vm_start_wait (fuel : nat) (name : string) {struct fuel} : M unit :=
  match fuel with
  | O => running
  | S fuel' =>
      d <- vm_status name ;;
      power_state <- subscript d sd_power_state ;;
      if negb (power_state =? 1) then sleep 1 ;; vm_start_wait fuel' name else ret tt
  end.

Definition vm_start (fuel : nat) (name : string) : M unit :=
  vm_info <- vm_status name ;;
  power_state <- subscript vm_info sd_power_state ;;
  if negb (power_state =? 1) then
    server <- subscript vm_info sd_server ;;
    remote (ServerStart (srv_id server)) ;;
    vm_start_wait fuel name
  else ret tt.

(** *** Images *)

Definition image_delete (name : string) : M unit :=
  image <- nova_find_call Images name ;;
  remote (GlanceDelete image) ;;
  ret tt.

Definition image_upload (name imagefile : string) : M unit :=
  try_except (image_delete name) is_NotFound (ret tt) ;;            (* pass *)
  fimage <- open_call imagefile ;;
  image <- remote (GlanceCreate name "raw" "bare" "ide") ;;
  remote (GlanceUpload image fimage) ;;
  ret tt.

(** *** main *)

Inductive command : Type :=
| CmdStatus | CmdCreate | CmdDelete | CmdStart | CmdStop
| CmdCreateImage | CmdDeleteImage.

(** What [parser.parse_args()] yields. *)
Record Args : Type := mkArgs {
  a_name : string;
  a_image : string;
  a_key_pair : string;
  a_flavor : string;
  a_network : string;
  a_image_path : string;
  a_cmd : option command
}.

(** The keys of the status dictionary, in the order [vm_status] assigns
    them.  Python leaves the iteration order of a dict open; nothing below
    depends on it. *)
Definition status_keys : list string :=
  ["server"; "id"; "name"; "status"; "power_state"; "network"].

Definition print_status (sd : StatusDict) : M unit :=
  fun w =>
    Returned tt (fold_left (fun w' key => record (EPrintField key sd) w') status_keys w).

Definition main (fuel : nat) (args : Args) : M unit :=
  match a_cmd args with
  | None => fun w => Returned tt (record EPrintHelp w)
  | Some CmdCreate =>
      vm_create fuel (a_name args) (a_image args) (a_key_pair args)
                (a_flavor args) (a_network args) ;;
      d <- vm_status (a_name args) ;;
      net <- subscript d sd_network ;;
      print (snd net)
  | Some CmdStatus =>
      status <- vm_status (a_name args) ;;
      match status with
      | None => raise TypeError                      (* for stat in None *)
      | Some sd => print_status sd
      end
  | Some CmdCreateImage => image_upload (a_name args) (a_image_path args)
  | Some CmdDelete => vm_delete fuel (a_name args)
  | Some CmdStart => vm_start fuel (a_name args)
  | Some CmdStop => vm_stop fuel (a_name args)
  | Some CmdDeleteImage => image_delete (a_name args)
  end.

End Program.

Arguments vm_status env name w : simpl never.

(** ** Fake backends

    Worlds scripted by lists of answers, used to run the operations on
    concrete inputs. *)
Module Fake.

Definition vm (status : string) (power_state : Z) (ip : string) : Server :=
  mkServer "7c1f" status power_state [("private", [ip])].

(** A backend whose k-th status query answers [nth k answers last], whose
    k-th ping exits with [nth k pings (Ok 0)], where every lookup finds an
    object named after what was asked for, every mutation succeeds and
    every file holds [data]. *)
Definition scripted (answers : list (result (list Server)))
           (last : result (list Server)) (pings : list (result Z)) : Env :=
  mkEnv (fun _ k => nth k answers last)
        (fun _ name _ => Ok ("id-of-" ++ name)%string)
        (fun m _ => match m with
                    | GlanceCreate _ _ _ _ => Ok "img-2"
                    | _ => Ok ""
                    end)
        (fun _ k => nth k pings (Ok 0))
        (fun _ _ => Ok "data").

(** No VM and no image of any name. *)
Definition empty : Env :=
  mkEnv (fun _ _ => Ok [])
        (fun f _ _ => match f with Images => Err NotFound | _ => Ok "id" end)
        (fun m _ => match m with
                    | GlanceCreate _ _ _ _ => Ok "img-1"
                    | _ => Ok ""
                    end)
        (fun _ _ => Err (OtherError "unreachable"))
        (fun _ _ => Ok "data").

Definition create_args : Args :=
  mkArgs "test-vm" "ubuntu16.04" "key" "g1.small" "private" "/tmp/image.img"
         (Some CmdCreate).

(** While [vm_create] waits, one server carries the name; it is active and
    answers the ping at 10.0.0.5.  By the time of the next status query a
    second server of that name exists and is listed first, with address
    10.0.0.9. *)
Definition newer : Server :=
  mkServer "b2e0" "BUILD" 0 [("private", ["10.0.0.9"])].

Definition shadowed : Env :=
  scripted [Ok [vm "ACTIVE" 1 "10.0.0.5"]; Ok [vm "ACTIVE" 1 "10.0.0.5"]]
           (Ok [newer; vm "ACTIVE" 1 "10.0.0.5"]) [].

(** BUILD three times, then ACTIVE; the second ping is the first to
    succeed. *)
Definition slow_boot : Env :=
  scripted [Ok [vm "BUILD" 0 "10.0.0.5"]; Ok [vm "BUILD" 0 "10.0.0.5"];
            Ok [vm "BUILD" 0 "10.0.0.5"]]
           (Ok [vm "ACTIVE" 1 "10.0.0.5"]) [Ok 1%Z].




(** The VM stays listed for two more status queries, then is gone. *)
Definition lingering : Env :=
  scripted [Ok [vm "ACTIVE" 1 "10.0.0.5"]; Ok [vm "ACTIVE" 1 "10.0.0.5"]] (Ok []) [].

(** A server without any network, and one whose first network carries no
    address while its second does. *)
Definition bare : Server := mkServer "0a11" "ACTIVE" 1 [].

Definition unaddressed : Server :=
  mkServer "0a12" "ACTIVE" 1 [("private", []); ("public", ["192.0.2.7"])].

Definition status_args : Args :=
  mkArgs "test-vm" "ubuntu16.04" "key" "g1.small" "private" "/tmp/image.img"
         (Some CmdStatus).

(** [server0] is listed for ever and every request that would change the
    remote side raises [e]. *)
Definition refusing (e : exn) (server0 : Server) : Env :=
  mkEnv (fun _ _ => Ok [server0])
        (fun _ name _ => Ok ("id-of-" ++ name)%string)
        (fun _ _ => Err e)
        (fun _ _ => Ok 0)
        (fun _ _ => Ok "data").

(** Running for two status queries, shut off from the third on; and shut
    off for the first status query, running from the second on. *)
Definition stopping : Env :=
  scripted [Ok [vm "ACTIVE" 1 "10.0.0.5"]; Ok [vm "ACTIVE" 1 "10.0.0.5"]]
           (Ok [vm "SHUTOFF" 4 "10.0.0.5"]) [].

Definition booting : Env :=
  scripted [Ok [vm "SHUTOFF" 4 "10.0.0.5"]] (Ok [vm "ACTIVE" 1 "10.0.0.5"]) [].

(** An image of every name exists, but no local file can be opened. *)
Definition no_file : Env :=
  mkEnv (fun _ _ => Ok [])
        (fun _ name _ => Ok ("id-of-" ++ name)%string)
        (fun _ _ => Ok "")
        (fun _ _ => Ok 0)
        (fun _ _ => Err (OtherError "IOError")).

(** Several images carry the name: the lookup raises. *)
Definition ambiguous : Env :=
  mkEnv (fun _ _ => Ok [])
        (fun _ _ _ => Err (OtherError "NoUniqueMatch"))
        (fun _ _ => Ok "")
        (fun _ _ => Ok 0)
        (fun _ _ => Ok "data").

Definition stop_args : Args :=
  mkArgs "test-vm" "ubuntu16.04" "key" "g1.small" "private" "/tmp/image.img"
         (Some CmdStop).

End Fake.

(** ** Reading answers and logs *)

(** The [(network_id, ip)] pair [vm_status] stores under ['network']. *)
Definition network_pair (server0 : Server) : string * string :=
  match first_address (srv_addresses server0) with
  | Ok net => net
  | Err _ => ("", "")
  end.

Definition reported_ip (server0 : Server) : string := snd (network_pair server0).

(** What [vm_status] yields for each answer of the server list. *)
Definition status_of (name : string) (r : result (list Server))
  : result (option StatusDict) :=
  match r with
  | Err e => Err e
  | Ok [] => Ok None
  | Ok (server0 :: _) =>
      Ok (Some (mkStatus server0 (srv_id server0) name (srv_status server0)
                         (srv_power_state server0) (network_pair server0)))
  end.

(** The address of the last ping that exited with 0, and the lines
    printed. *)
Definition last_probe (t : list event) : option string :=
  fold_left (fun acc e => match e with
                          | EPing ip (Ok 0) => Some ip
                          | _ => acc
                          end) t None.

Definition printed_lines (t : list event) : list string :=
  flat_map (fun e => match e with EPrint line => [line] | _ => [] end) t.

(** [main --create] prints, as its only output, the address the successful
    probe went to. *)
Definition create_prints_probed_address
           (env : Env) (fuel : nat) (args : Args) (w : World) : Prop :=
  forall w', main env fuel args w = Returned tt w' ->
             exists ip, last_probe (trace w') = Some ip /\
                        printed_lines (trace w') = printed_lines (trace w) ++ [ip].

(** *** Cadence of a wait *)

(** [spaced secs t]: between any two consecutive status queries of [t]
    there is a sleep of [secs] seconds.  [slept] tells whether such a sleep
    was seen since the last query. *)
Fixpoint spaced_from (secs : Z) (slept : bool) (t : list event) : bool :=
  match t with
  | [] => true
  | EQuery _ _ :: t' => slept && spaced_from secs false t'
  | ESleep s :: t' => spaced_from secs (slept || (s =? secs)) t'
  | _ :: t' => spaced_from secs slept t'
  end.

Definition spaced (secs : Z) (t : list event) : bool := spaced_from secs true t.

(** The log of create's status wait: a query that listed the VM is followed
    by a sleep of one second, any other query directly by the next
    query. *)
Fixpoint status_wait_log (t : list event) : bool :=
  match t with
  | [] => true
  | EQuery _ (Ok (_ :: _)) :: t1 =>
      match t1 with
      | ESleep secs :: t2 => (secs =? 1) && status_wait_log t2
      | _ => false
      end
  | EQuery _ _ :: t1 => status_wait_log t1
  | _ => false
  end.

(** Every run of [wait], from any world, logs status queries that are
    [secs] seconds of sleep apart. *)
Definition paced (secs : Z) (wait : M unit) : Prop :=
  forall w seg, trace (final (wait w)) = trace w ++ seg -> spaced secs seg = true.

(** *** Failures during a wait *)


(** *** What a wait waits for *)


(** ... delete's wait: [vm_status(name)['server']] raises [TypeError],
    because [vm_status] returned [None] or because the client raised it... *)
Definition raises_TypeError (r : result (list Server)) : bool :=
  match r with
  | Ok [] => true
  | Ok (_ :: _) => false
  | Err e => is_TypeError e
  end.

(** ... and the waits of stop ([running = false]) and start
    ([running = true]). *)
Definition lists_power (running : bool) (r : result (list Server)) : bool :=
  match r with
  | Ok (server0 :: _) => Bool.eqb (srv_power_state server0 =? 1) running
  | _ => false
  end.

(** The answers after which a wait is still in its loop when they do not
    end it: create's status wait and delete's wait catch [TypeError] only,
    the waits of stop and start need the VM listed. *)
Definition no_stray_failure (r : result (list Server)) : bool :=
  match r with
  | Ok _ => true
  | Err e => is_TypeError e
  end.

Definition lists_vm (r : result (list Server)) : bool :=
  match r with
  | Ok (_ :: _) => true
  | _ => false
  end.






(** The waits of stop ([running = false]) and start ([running = true]),
    told apart by the power state they wait for. *)
Definition power_wait (env : Env) (name : string) (running : bool) (fuel : nat)
  : M unit :=
  if running then vm_start_wait env fuel name else vm_stop_wait env fuel name.


(** *** What a run logged *)

(** The requests that change the remote side, in the order they were
    sent. *)
Definition mutations (t : list event) : list mutation :=
  flat_map (fun e => match e with EMutate m _ => [m] | _ => [] end) t.

(** Status queries, pings and sleeps: all a wait is meant to do. *)
Definition is_poll (e : event) : bool :=
  match e with
  | EQuery _ _ | EPing _ _ | ESleep _ => true
  | _ => false
  end.

Definition only_polls (t : list event) : bool := forallb is_poll t.

Definition is_query_or_sleep (e : event) : bool :=
  match e with
  | EQuery _ _ | ESleep _ => true
  | _ => false
  end.

Definition is_lookup (e : event) : bool :=
  match e with EFind _ _ _ => true | _ => false end.

(** Everything written to standard output: the line of [--create], the
    fields of [--status] and the usage text. *)
Definition is_output (e : event) : bool :=
  match e with
  | EPrint _ | EPrintField _ _ | EPrintHelp => true
  | _ => false
  end.

Definition output (t : list event) : list event := filter is_output t.

(** ** Running the primitives *)

Lemma n_query_record (e : event) (w : World) :
  n_query (record e w) = if is_query e then S (n_query w) else n_query w.
Proof. destruct e; reflexivity. Qed.

Lemma vm_status_run (env : Env) (name : string) (w : World) :
  vm_status env name w =
  lift (status_of name (servers_list env name (n_query w)))
       (record (EQuery name (servers_list env name (n_query w))) w).
Proof.
  unfold vm_status, bind, nova_servers_list.
  destruct (servers_list env name (n_query w)) as [[|server0 rest]|e]; simpl; try reflexivity.
  unfold network_of, try_except, network_pair.
  destruct (srv_addresses server0) as [|[network_id [|ip addrs]] nets]; reflexivity.
Qed.

Ltac run_status H :=
  rewrite vm_status_run; rewrite ?n_query_record; simpl is_query; cbv iota;
  rewrite ?H; simpl.

(** ** Absent virtual machines *)

(** C6: when the remote API lists no server under the name, [vm_status]
    returns the absent sentinel [None] after that one query; it raises
    nothing. *)
Theorem vm_status_absent_returns_none (env : Env) (name : string) (w : World) :
  servers_list env name (n_query w) = Ok [] ->
  vm_status env name w = Returned None (record (EQuery name (Ok [])) w).
Proof.
  intros H. rewrite vm_status_run, H. reflexivity.
Qed.

Lemma vm_status_absent_returns_none_witness :
  servers_list Fake.empty "test-vm" (n_query world0) = Ok [] /\
  vm_status Fake.empty "test-vm" world0 =
  Returned None (record (EQuery "test-vm" (Ok [])) world0).
Proof.
  split; [reflexivity|].
  apply (vm_status_absent_returns_none Fake.empty "test-vm" world0). reflexivity.
Defined.

Lemma vm_delete_absent_run (env : Env) (name : string) (fuel : nat) (w : World) :
  (forall k, servers_list env name k = Ok []) ->
  vm_delete env (S fuel) name w =
  Returned tt (record (EQuery name (Ok [])) (record (EQuery name (Ok [])) w)).
Proof.
  intros H. unfold vm_delete, try_except, bind. run_status H.
  unfold try_then, bind. run_status H. reflexivity.
Qed.

(** C2: when no VM of the name exists (every status query finds nothing),
    [vm_delete] returns in the first round of its wait, having made two
    status queries and no mutation call at all. *)
Theorem vm_delete_absent_is_noop (env : Env) (name : string) (fuel : nat) (w : World) :
  (forall k, servers_list env name k = Ok []) ->
  exists w',
    vm_delete env (S fuel) name w = Returned tt w' /\
    trace w' = trace w ++ [EQuery name (Ok []); EQuery name (Ok [])] /\
    n_mut w' = n_mut w /\
    existsb is_mutation (trace w') = existsb is_mutation (trace w).
Proof.
  intros H.
  exists (record (EQuery name (Ok [])) (record (EQuery name (Ok [])) w)).
  split; [|split; [|split]].
  - apply vm_delete_absent_run, H.
  - simpl. rewrite <- app_assoc. reflexivity.
  - reflexivity.
  - simpl. rewrite <- app_assoc, existsb_app. simpl. apply orb_false_r.
Qed.

Lemma vm_delete_absent_is_noop_witness :
  exists w',
    vm_delete Fake.empty 1 "test-vm" world0 = Returned tt w' /\
    trace w' = trace world0 ++ [EQuery "test-vm" (Ok []); EQuery "test-vm" (Ok [])] /\
    n_mut w' = n_mut world0 /\
    existsb is_mutation (trace w') = existsb is_mutation (trace world0).
Proof.
  apply (vm_delete_absent_is_noop Fake.empty "test-vm" 0 world0).
  intros k. reflexivity.
Defined.

(** C3: [vm_start] on a VM whose power state is 1 (running) and [vm_stop]
    on a VM whose power state is not 1 return after the single status query
    that read the power state: no mutation call, no sleep, no second
    query, whatever the fuel. *)
Theorem start_stop_nothing_to_do
        (env : Env) (name : string) (fuel : nat) (w : World)
        (server0 : Server) (others : list Server) :
  servers_list env name (n_query w) = Ok (server0 :: others) ->
  let w' := record (EQuery name (Ok (server0 :: others))) w in
  trace w' = trace w ++ [EQuery name (Ok (server0 :: others))] /\
  n_mut w' = n_mut w /\
  n_query w' = S (n_query w) /\
  (srv_power_state server0 = 1 -> vm_start env fuel name w = Returned tt w') /\
  (srv_power_state server0 <> 1 -> vm_stop env fuel name w = Returned tt w').
Proof.
  intros H w'. repeat split.
  - intros Hp. unfold vm_start, bind. run_status H. rewrite Hp. reflexivity.
  - intros Hp. unfold vm_stop, bind. run_status H.
    apply Z.eqb_neq in Hp. rewrite Hp. reflexivity.
Qed.

Lemma start_stop_nothing_to_do_witness :
  vm_start (Fake.scripted [] (Ok [Fake.vm "ACTIVE" 1 "10.0.0.5"]) []) 0 "test-vm" world0 =
    Returned tt (record (EQuery "test-vm" (Ok [Fake.vm "ACTIVE" 1 "10.0.0.5"])) world0) /\
  vm_stop (Fake.scripted [] (Ok [Fake.vm "SHUTOFF" 4 "10.0.0.5"]) []) 0 "test-vm" world0 =
    Returned tt (record (EQuery "test-vm" (Ok [Fake.vm "SHUTOFF" 4 "10.0.0.5"])) world0).
Proof.
  split.
  - apply (start_stop_nothing_to_do
             (Fake.scripted [] (Ok [Fake.vm "ACTIVE" 1 "10.0.0.5"]) [])
             "test-vm" 0 world0 (Fake.vm "ACTIVE" 1 "10.0.0.5") []);
      reflexivity.
  - apply (start_stop_nothing_to_do
             (Fake.scripted [] (Ok [Fake.vm "SHUTOFF" 4 "10.0.0.5"]) [])
             "test-vm" 0 world0 (Fake.vm "SHUTOFF" 4 "10.0.0.5") []);
      [reflexivity | discriminate].
Defined.

(** C10: when the status query finds no VM, [vm_start] and [vm_stop] raise
    [TypeError] right after that query (the subscript of [None]); they
    neither return, nor call the remote side, nor poll.  [vm_delete] on the
    same backend returns normally. *)
Theorem start_stop_absent_raise_TypeError
        (env : Env) (name : string) (fuel : nat) (w : World) :
  (forall k, servers_list env name k = Ok []) ->
  vm_start env fuel name w = Raised TypeError (record (EQuery name (Ok [])) w) /\
  vm_stop env fuel name w = Raised TypeError (record (EQuery name (Ok [])) w) /\
  exists w', vm_delete env (S fuel) name w = Returned tt w'.
Proof.
  intros H. repeat split.
  - unfold vm_start, bind. run_status H. reflexivity.
  - unfold vm_stop, bind. run_status H. reflexivity.
  - eexists. apply vm_delete_absent_run, H.
Qed.

Lemma start_stop_absent_raise_TypeError_witness :
  vm_start Fake.empty 3 "test-vm" world0 =
    Raised TypeError (record (EQuery "test-vm" (Ok [])) world0) /\
  vm_stop Fake.empty 3 "test-vm" world0 =
    Raised TypeError (record (EQuery "test-vm" (Ok [])) world0) /\
  exists w', vm_delete Fake.empty 4 "test-vm" world0 = Returned tt w'.
Proof.
  apply (start_stop_absent_raise_TypeError Fake.empty "test-vm" 3 world0).
  intros k. reflexivity.
Defined.

(** ** Images *)

(** C8: when the lookup of the image name raises [NotFound], [image_delete]
    raises that [NotFound] to its caller, and the lookup is all it did: no
    deletion request was sent. *)
Theorem image_delete_missing_raises (env : Env) (name : string) (w : World) :
  nova_find env Images name (n_find w) = Err NotFound ->
  exists w',
    image_delete env name w = Raised NotFound w' /\
    trace w' = trace w ++ [EFind Images name (Err NotFound)] /\
    n_mut w' = n_mut w.
Proof.
  intros H. eexists. split; [|split].
  - unfold image_delete, bind, nova_find_call. rewrite H. reflexivity.
  - reflexivity.
  - reflexivity.
Qed.

Lemma image_delete_missing_raises_witness :
  exists w',
    image_delete Fake.empty "unikernel" world0 = Raised NotFound w' /\
    trace w' = trace world0 ++ [EFind Images "unikernel" (Err NotFound)] /\
    n_mut w' = n_mut world0.
Proof.
  apply (image_delete_missing_raises Fake.empty "unikernel" world0). reflexivity.
Defined.

Ltac split_answers :=
  repeat match goal with
         | |- context [lift ?r _] => destruct r; simpl
         | |- context [is_NotFound ?e] => destruct e; simpl
         end.

(** C7: [image_upload] begins with the lookup that serves the deletion of
    an existing image of that name; when the lookup finds one, the deletion
    request comes next, before anything is created.  When the lookup raises
    [NotFound], that failure is swallowed: the file is opened, the image
    created with the fixed raw/bare/ide settings and the file's bytes
    uploaded to it, and [image_upload] returns normally.  The same four
    steps follow a successful deletion. *)
Theorem image_upload_deletes_then_creates
        (env : Env) (name imagefile : string) (w : World) :
  let out := image_upload env name imagefile w in
  let found := nova_find env Images name (n_find w) in
  let create := GlanceCreate name "raw" "bare" "ide" in
  (exists rest, trace (final out) = trace w ++ EFind Images name found :: rest) /\
  (forall old, found = Ok old ->
     exists rest,
       trace (final out) =
       trace w ++ EFind Images name found
               :: EMutate (GlanceDelete old) (mutate env (GlanceDelete old) (n_mut w))
               :: rest) /\
  (forall data new r,
     found = Err NotFound ->
     open_file env imagefile (n_open w) = Ok data ->
     mutate env create (n_mut w) = Ok new ->
     mutate env (GlanceUpload new data) (S (n_mut w)) = Ok r ->
     exists w',
       out = Returned tt w' /\
       trace w' = trace w ++ [EFind Images name (Err NotFound);
                              EOpen imagefile (Ok data);
                              EMutate create (Ok new);
                              EMutate (GlanceUpload new data) (Ok r)]) /\
  (forall old rd data new r,
     found = Ok old ->
     mutate env (GlanceDelete old) (n_mut w) = Ok rd ->
     open_file env imagefile (n_open w) = Ok data ->
     mutate env create (S (n_mut w)) = Ok new ->
     mutate env (GlanceUpload new data) (S (S (n_mut w))) = Ok r ->
     exists w',
       out = Returned tt w' /\
       trace w' = trace w ++ [EFind Images name (Ok old);
                              EMutate (GlanceDelete old) (Ok rd);
                              EOpen imagefile (Ok data);
                              EMutate create (Ok new);
                              EMutate (GlanceUpload new data) (Ok r)]).
Proof.
  intros out found create. subst out found create.
  unfold image_upload, image_delete, try_except, bind, nova_find_call, remote, open_call.
  repeat split.
  - split_answers; rewrite <- ?app_assoc; simpl; eexists; reflexivity.
  - intros old H. rewrite H. simpl.
    split_answers; rewrite <- ?app_assoc; simpl; eexists; reflexivity.
  - intros data new r Hf Ho Hc Hu. rewrite Hf. simpl. rewrite Ho. simpl.
    rewrite Hc. simpl. rewrite Hu. simpl.
    eexists. split; [reflexivity|]. simpl. rewrite <- !app_assoc. reflexivity.
  - intros old rd data new r Hf Hd Ho Hc Hu. rewrite Hf. simpl. rewrite Hd. simpl.
    rewrite Ho. simpl. rewrite Hc. simpl. rewrite Hu. simpl.
    eexists. split; [reflexivity|]. simpl. rewrite <- !app_assoc. reflexivity.
Qed.

Lemma image_upload_deletes_then_creates_witness :
  (exists w',
      image_upload Fake.empty "unikernel" "/tmp/image.img" world0 = Returned tt w' /\
      trace w' = trace world0
                 ++ [EFind Images "unikernel" (Err NotFound);
                     EOpen "/tmp/image.img" (Ok "data");
                     EMutate (GlanceCreate "unikernel" "raw" "bare" "ide") (Ok "img-1");
                     EMutate (GlanceUpload "img-1" "data") (Ok "")]) /\
  (exists w',
      image_upload (Fake.scripted [] (Ok []) []) "unikernel" "/tmp/image.img" world0
        = Returned tt w' /\
      trace w' = trace world0
                 ++ [EFind Images "unikernel" (Ok "id-of-unikernel");
                     EMutate (GlanceDelete "id-of-unikernel") (Ok "");
                     EOpen "/tmp/image.img" (Ok "data");
                     EMutate (GlanceCreate "unikernel" "raw" "bare" "ide") (Ok "img-2");
                     EMutate (GlanceUpload "img-2" "data") (Ok "")]).
Proof.
  split.
  - destruct (image_upload_deletes_then_creates
                Fake.empty "unikernel" "/tmp/image.img" world0) as (_ & _ & Hnone & _).
    apply Hnone; reflexivity.
  - destruct (image_upload_deletes_then_creates
                (Fake.scripted [] (Ok []) []) "unikernel" "/tmp/image.img" world0)
      as (_ & _ & _ & Hold).
    apply Hold; reflexivity.
Defined.

(** ** One round of each wait *)

Section Rounds.

Variable env : Env.
Variable name : string.

Let answer (w : World) : result (list Server) := servers_list env name (n_query w).
Let asked (w : World) : World := record (EQuery name (answer w)) w.

Lemma wait_active_done (fuel : nat) (w : World) :
  vm_create_wait_active env fuel name "ACTIVE" w = Returned tt w.
Proof. destruct fuel; reflexivity. Qed.

Lemma wait_active_round (fuel : nat) (status : string) (w : World) :
  String.eqb status "ACTIVE" = false ->
  vm_create_wait_active env (S fuel) name status w =
  match answer w with
  | Ok [] => vm_create_wait_active env fuel name status (asked w)
  | Ok (server0 :: _) =>
      vm_create_wait_active env fuel name (srv_status server0)
                            (record (ESleep 1) (asked w))
  | Err e => if is_TypeError e
             then vm_create_wait_active env fuel name status (asked w)
             else Raised e (asked w)
  end.
Proof.
  intros Hs. subst answer asked. simpl. rewrite Hs.
  unfold try_then, bind. rewrite vm_status_run.
  destruct (servers_list env name (n_query w)) as [[|server0 rest]|e]; reflexivity.
Qed.

(** The [try] block of the reachability wait. *)
Lemma ping_attempt_run (ping_response : bool) (w : World) :
  ping_attempt env name ping_response w =
  match answer w with
  | Ok [] => Raised TypeError (asked w)
  | Ok (server0 :: _) =>
      let ip := reported_ip server0 in
      let r := ping_exit env ip (n_ping w) in
      match r with
      | Ok rc => if rc =? 0 then Returned true (record (EPing ip (Ok 0)) (asked w))
                 else Raised CalledProcessError (record (EPing ip r) (asked w))
      | Err e => Raised e (record (EPing ip r) (asked w))
      end
  | Err e => Raised e (asked w)
  end.
Proof.
  subst answer asked. unfold ping_attempt, bind. rewrite vm_status_run.
  destruct (servers_list env name (n_query w)) as [[|server0 rest]|e]; try reflexivity.
  simpl. unfold check_call_ping, reported_ip. simpl.
  destruct (ping_exit env (snd (network_pair server0)) (n_ping w)) as [rc|e]; try reflexivity.
  destruct (rc =? 0) eqn:E; try reflexivity.
  apply Z.eqb_eq in E. subst rc. reflexivity.
Qed.

Lemma wait_ping_round (fuel : nat) (w : World) :
  vm_create_wait_ping env (S fuel) name false w =
  match ping_attempt env name false w with
  | Returned _ w1 => Returned tt (record (ESleep 2) w1)
  | Raised _ w1 => vm_create_wait_ping env fuel name false w1
  | Running w1 => Running w1
  end.
Proof.
  simpl. unfold try_then. rewrite ping_attempt_run. subst answer asked. simpl.
  destruct (servers_list env name (n_query w)) as [[|server0 rest]|e]; try reflexivity.
  destruct (ping_exit env (reported_ip server0) (n_ping w)) as [rc|e]; try reflexivity.
  destruct (rc =? 0); try reflexivity.
  unfold bind, sleep. destruct fuel; reflexivity.
Qed.

Lemma delete_wait_round (fuel : nat) (w : World) :
  vm_delete_wait env (S fuel) name w =
  match answer w with
  | Ok [] => Returned tt (asked w)
  | Ok (_ :: _) => vm_delete_wait env fuel name (asked w)
  | Err e => if is_TypeError e then Returned tt (asked w) else Raised e (asked w)
  end.
Proof.
  subst answer asked. simpl. unfold try_then, bind. rewrite vm_status_run.
  destruct (servers_list env name (n_query w)) as [[|server0 rest]|e]; reflexivity.
Qed.

Lemma stop_wait_round (fuel : nat) (w : World) :
  vm_stop_wait env (S fuel) name w =
  match answer w with
  | Ok [] => Raised TypeError (asked w)
  | Ok (server0 :: _) =>
      if srv_power_state server0 =? 1
      then vm_stop_wait env fuel name (record (ESleep 1) (asked w))
      else Returned tt (asked w)
  | Err e => Raised e (asked w)
  end.
Proof.
  subst answer asked. simpl. unfold bind. rewrite vm_status_run.
  destruct (servers_list env name (n_query w)) as [[|server0 rest]|e]; try reflexivity.
  simpl. destruct (srv_power_state server0 =? 1); reflexivity.
Qed.

Lemma start_wait_round (fuel : nat) (w : World) :
  vm_start_wait env (S fuel) name w =
  match answer w with
  | Ok [] => Raised TypeError (asked w)
  | Ok (server0 :: _) =>
      if srv_power_state server0 =? 1
      then Returned tt (asked w)
      else vm_start_wait env fuel name (record (ESleep 1) (asked w))
  | Err e => Raised e (asked w)
  end.
Proof.
  subst answer asked. simpl. unfold bind. rewrite vm_status_run.
  destruct (servers_list env name (n_query w)) as [[|server0 rest]|e]; try reflexivity.
  simpl. destruct (srv_power_state server0 =? 1); reflexivity.
Qed.

End Rounds.

(** ** Creation *)

Section Create.

Variable env : Env.
Variable name : string.

(** The status wait returns only after a query that listed the VM as
    ACTIVE. *)
Lemma wait_active_returned (fuel : nat) :
  forall (status : string) (w w' : World),
    String.eqb status "ACTIVE" = false ->
    vm_create_wait_active env fuel name status w = Returned tt w' ->
    exists before server0 others,
      trace w' = trace w ++ before
                         ++ [EQuery name (Ok (server0 :: others)); ESleep 1] /\
      srv_status server0 = "ACTIVE".
Proof.
  induction fuel as [|fuel IH]; intros status w w' Hs Hrun.
  - simpl in Hrun. rewrite Hs in Hrun. discriminate.
  - rewrite wait_active_round in Hrun by exact Hs.
    destruct (servers_list env name (n_query w)) as [[|server0 rest]|e] eqn:Ha.
    + apply IH in Hrun; [|exact Hs].
      destruct Hrun as (before & s0 & others & Ht & Hact).
      exists (EQuery name (Ok []) :: before), s0, others. split; [|exact Hact].
      rewrite Ht. simpl. rewrite <- app_assoc. reflexivity.
    + destruct (String.eqb (srv_status server0) "ACTIVE") eqn:Hnew.
      * apply String.eqb_eq in Hnew. rewrite Hnew, wait_active_done in Hrun.
        injection Hrun as <-.
        exists [], server0, rest. split; [|exact Hnew].
        simpl. rewrite <- app_assoc. reflexivity.
      * apply IH in Hrun; [|exact Hnew].
        destruct Hrun as (before & s0 & others & Ht & Hact).
        exists (EQuery name (Ok (server0 :: rest)) :: ESleep 1 :: before), s0, others.
        split; [|exact Hact].
        rewrite Ht. simpl. rewrite <- !app_assoc. reflexivity.
    + destruct e; simpl in Hrun; try discriminate.
      apply IH in Hrun; [|exact Hs].
      destruct Hrun as (before & s0 & others & Ht & Hact).
      exists (EQuery name (Err TypeError) :: before), s0, others. split; [|exact Hact].
      rewrite Ht. simpl. rewrite <- app_assoc. reflexivity.
Qed.

(** The reachability wait returns only after a query whose reported
    address answered the ping with exit code 0. *)
Lemma wait_ping_returned (fuel : nat) :
  forall (w w' : World),
    vm_create_wait_ping env fuel name false w = Returned tt w' ->
    exists between server1 others,
      trace w' = trace w ++ between
                         ++ [EQuery name (Ok (server1 :: others));
                             EPing (reported_ip server1) (Ok 0); ESleep 2].
Proof.
  induction fuel as [|fuel IH]; intros w w' Hrun.
  - discriminate.
  - rewrite wait_ping_round, ping_attempt_run in Hrun.
    destruct (servers_list env name (n_query w)) as [[|server1 rest]|e] eqn:Ha.
    + apply IH in Hrun. destruct Hrun as (between & s1 & others & Ht).
      exists (EQuery name (Ok []) :: between), s1, others.
      rewrite Ht. simpl. rewrite <- app_assoc. reflexivity.
    + cbv zeta in Hrun.
      destruct (ping_exit env (reported_ip server1) (n_ping w)) as [rc|e] eqn:Hp.
      * destruct (rc =? 0) eqn:Hrc.
        -- injection Hrun as <-. exists [], server1, rest.
           simpl. rewrite <- !app_assoc. reflexivity.
        -- apply IH in Hrun. destruct Hrun as (between & s1 & others & Ht).
           exists (EQuery name (Ok (server1 :: rest))
                     :: EPing (reported_ip server1) (Ok rc) :: between), s1, others.
           rewrite Ht. simpl. rewrite <- !app_assoc. reflexivity.
      * apply IH in Hrun. destruct Hrun as (between & s1 & others & Ht).
        exists (EQuery name (Ok (server1 :: rest))
                  :: EPing (reported_ip server1) (Err e) :: between), s1, others.
        rewrite Ht. simpl. rewrite <- !app_assoc. reflexivity.
    + apply IH in Hrun. destruct Hrun as (between & s1 & others & Ht).
      exists (EQuery name (Err e) :: between), s1, others.
      rewrite Ht. simpl. rewrite <- app_assoc. reflexivity.
Qed.

(** [vm_create] runs its two waits one after the other. *)
Lemma vm_create_returned (fuel : nat) (image key_pair flavor network : string)
      (w w1 : World) :
  vm_create env fuel name image key_pair flavor network w = Returned tt w1 ->
  exists wa wb,
    (exists setup, trace wa = trace w ++ setup) /\
    vm_create_wait_active env fuel name "" wa = Returned tt wb /\
    vm_create_wait_ping env fuel name false wb = Returned tt w1.
Proof.
  unfold vm_create, bind, nova_find_call, remote. intros Hrun.
  destruct (nova_find env Networks network (n_find w)) as [net_id|e] eqn:H1;
    simpl in Hrun; [|discriminate].
  destruct (nova_find env Images image (S (n_find w))) as [img|e] eqn:H2;
    simpl in Hrun; [|discriminate].
  destruct (nova_find env Flavors flavor (S (S (n_find w)))) as [flv|e] eqn:H3;
    simpl in Hrun; [|discriminate].
  destruct (mutate env (ServersCreate name img flv net_id key_pair) (n_mut w))
    as [made|e] eqn:H4; simpl in Hrun; [|discriminate].
  match type of Hrun with
  | match vm_create_wait_active _ _ _ _ ?wa with _ => _ end = _ =>
      destruct (vm_create_wait_active env fuel name "" wa) as [[] wb|e wb|wb] eqn:Hact;
      try discriminate;
      exists wa, wb
  end.
  split; [|split; [exact Hact | exact Hrun]].
  simpl. rewrite <- !app_assoc. eexists. reflexivity.
Qed.

End Create.

(** C1, as the code has it: whenever [vm_create] returns, its log continues
    the earlier log with a status query that listed the VM as ACTIVE and,
    later, a status query whose reported first address answered the ping
    with exit code 0 (followed by the closing sleep).  Under [--create],
    [main] then makes one more status query and prints the first address
    that query reports; it raises [TypeError] and prints nothing when that
    query lists no VM. *)
Theorem create_returns_after_active_and_ping
        (env : Env) (fuel : nat) (args : Args) (w w1 : World) :
  vm_create env fuel (a_name args) (a_image args) (a_key_pair args)
            (a_flavor args) (a_network args) w = Returned tt w1 ->
  (exists before server0 others0 between server1 others1,
      trace w1 = trace w ++ before
                  ++ [EQuery (a_name args) (Ok (server0 :: others0)); ESleep 1]
                  ++ between
                  ++ [EQuery (a_name args) (Ok (server1 :: others1));
                      EPing (reported_ip server1) (Ok 0); ESleep 2] /\
      srv_status server0 = "ACTIVE") /\
  (a_cmd args = Some CmdCreate ->
   main env fuel args w =
   let r := servers_list env (a_name args) (n_query w1) in
   let w2 := record (EQuery (a_name args) r) w1 in
   match r with
   | Ok [] => Raised TypeError w2
   | Ok (server2 :: _) => Returned tt (record (EPrint (reported_ip server2)) w2)
   | Err e => Raised e w2
   end).
Proof.
  intros Hrun. split.
  - destruct (vm_create_returned _ _ _ _ _ _ _ _ _ Hrun)
      as (wa & wb & (setup & Hsetup) & Hact & Hping).
    apply wait_active_returned in Hact; [|reflexivity].
    destruct Hact as (before & server0 & others0 & Hb & Hactive).
    apply wait_ping_returned in Hping.
    destruct Hping as (between & server1 & others1 & Hp).
    exists (setup ++ before), server0, others0, between, server1, others1.
    split; [|exact Hactive].
    rewrite Hp, Hb, Hsetup. rewrite <- !app_assoc. reflexivity.
  - intros Hcmd. unfold main. rewrite Hcmd. unfold bind at 1. rewrite Hrun.
    unfold bind. rewrite vm_status_run.
    destruct (servers_list env (a_name args) (n_query w1)) as [[|server2 rest]|e];
      reflexivity.
Qed.

Lemma create_returns_after_active_and_ping_witness :
  let w1 := final (vm_create Fake.slow_boot 4 "test-vm" "ubuntu16.04" "key"
                             "g1.small" "private" world0) in
  (exists before server0 others0 between server1 others1,
      trace w1 = trace world0 ++ before
                  ++ [EQuery "test-vm" (Ok (server0 :: others0)); ESleep 1]
                  ++ between
                  ++ [EQuery "test-vm" (Ok (server1 :: others1));
                      EPing (reported_ip server1) (Ok 0); ESleep 2] /\
      srv_status server0 = "ACTIVE") /\
  main Fake.slow_boot 4 Fake.create_args world0 =
  Returned tt (record (EPrint "10.0.0.5")
                      (record (EQuery "test-vm" (Ok [Fake.vm "ACTIVE" 1 "10.0.0.5"])) w1)).
Proof.
  intros w1.
  assert (Hrun : vm_create Fake.slow_boot 4 (a_name Fake.create_args)
                           (a_image Fake.create_args) (a_key_pair Fake.create_args)
                           (a_flavor Fake.create_args) (a_network Fake.create_args)
                           world0 = Returned tt w1)
    by (vm_compute; reflexivity).
  destruct (create_returns_after_active_and_ping
              Fake.slow_boot 4 Fake.create_args world0 w1 Hrun) as [Hlog Hmain].
  split; [exact Hlog|].
  rewrite (Hmain eq_refl). vm_compute. reflexivity.
Defined.

(** C1 as stated fails: on a backend where a second server of the same
    name is listed first once [vm_create] has returned, the ping that
    succeeded went to 10.0.0.5 and the line printed is 10.0.0.9. *)
Lemma create_prints_another_address :
  last_probe (trace (final (main Fake.shadowed 2 Fake.create_args world0)))
    = Some "10.0.0.5" /\
  printed_lines (trace (final (main Fake.shadowed 2 Fake.create_args world0)))
    = ["10.0.0.9"] /\
  ~ create_prints_probed_address Fake.shadowed 2 Fake.create_args world0.
Proof.
  split; [vm_compute; reflexivity|]. split; [vm_compute; reflexivity|].
  intros H.
  assert (Hrun : main Fake.shadowed 2 Fake.create_args world0 =
                 Returned tt (final (main Fake.shadowed 2 Fake.create_args world0)))
    by (vm_compute; reflexivity).
  destruct (H _ Hrun) as (ip & Hprobe & Hprint).
  vm_compute in Hprobe, Hprint. congruence.
Qed.

(** ** Failures raised by the status query *)




(** ** Cadence of the waits *)

Lemma existsb_removelast {A} (f : A -> bool) (l : list A) :
  existsb f l = false -> existsb f (removelast l) = false.
Proof.
  induction l as [|a l IH]; [reflexivity|].
  simpl. intros H. apply orb_false_iff in H as [Ha Hl].
  destruct l as [|b l]; [reflexivity|].
  change (f a || existsb f (removelast (b :: l)) = false).
  rewrite Ha. apply IH, Hl.
Qed.

Ltac tidy_trace :=
  simpl; rewrite <- ?app_assoc; simpl.

Section Cadence.

Variable env : Env.
Variable name : string.

Lemma stop_wait_spaced (fuel : nat) :
  forall w, exists seg,
      trace (final (vm_stop_wait env fuel name w)) = trace w ++ seg /\
      spaced 1 seg = true.
Proof.
  induction fuel as [|fuel IH]; intros w.
  - exists []. split; [symmetry; apply app_nil_r | reflexivity].
  - rewrite stop_wait_round.
    destruct (servers_list env name (n_query w)) as [[|server0 rest]|e];
      try (eexists [_]; split; reflexivity).
    destruct (srv_power_state server0 =? 1); [|eexists [_]; split; reflexivity].
    destruct (IH (record (ESleep 1)
                         (record (EQuery name (Ok (server0 :: rest))) w)))
      as (seg & Ht & Hs).
    exists (EQuery name (Ok (server0 :: rest)) :: ESleep 1 :: seg).
    split; [rewrite Ht; tidy_trace; reflexivity | exact Hs].
Qed.

Lemma start_wait_spaced (fuel : nat) :
  forall w, exists seg,
      trace (final (vm_start_wait env fuel name w)) = trace w ++ seg /\
      spaced 1 seg = true.
Proof.
  induction fuel as [|fuel IH]; intros w.
  - exists []. split; [symmetry; apply app_nil_r | reflexivity].
  - rewrite start_wait_round.
    destruct (servers_list env name (n_query w)) as [[|server0 rest]|e];
      try (eexists [_]; split; reflexivity).
    destruct (srv_power_state server0 =? 1); [eexists [_]; split; reflexivity|].
    destruct (IH (record (ESleep 1)
                         (record (EQuery name (Ok (server0 :: rest))) w)))
      as (seg & Ht & Hs).
    exists (EQuery name (Ok (server0 :: rest)) :: ESleep 1 :: seg).
    split; [rewrite Ht; tidy_trace; reflexivity | exact Hs].
Qed.

Lemma wait_active_log (fuel : nat) :
  forall status w, exists seg,
      trace (final (vm_create_wait_active env fuel name status w)) = trace w ++ seg /\
      status_wait_log seg = true.
Proof.
  induction fuel as [|fuel IH]; intros status w.
  - exists []. split; [|reflexivity].
    simpl. destruct (String.eqb status "ACTIVE"); symmetry; apply app_nil_r.
  - destruct (String.eqb status "ACTIVE") eqn:Hs.
    + exists []. split; [|reflexivity].
      simpl. rewrite Hs. symmetry; apply app_nil_r.
    + rewrite wait_active_round by exact Hs.
      destruct (servers_list env name (n_query w)) as [[|server0 rest]|e].
      * destruct (IH status (record (EQuery name (Ok [])) w)) as (seg & Ht & Hl).
        exists (EQuery name (Ok []) :: seg).
        split; [rewrite Ht; tidy_trace; reflexivity | exact Hl].
      * destruct (IH (srv_status server0)
                     (record (ESleep 1)
                             (record (EQuery name (Ok (server0 :: rest))) w)))
          as (seg & Ht & Hl).
        exists (EQuery name (Ok (server0 :: rest)) :: ESleep 1 :: seg).
        split; [rewrite Ht; tidy_trace; reflexivity | exact Hl].
      * destruct (is_TypeError e).
        -- destruct (IH status (record (EQuery name (Err e)) w)) as (seg & Ht & Hl).
           exists (EQuery name (Err e) :: seg).
           split; [rewrite Ht; tidy_trace; reflexivity | exact Hl].
        -- exists [EQuery name (Err e)]. split; reflexivity.
Qed.

Lemma wait_ping_sleeps (fuel : nat) :
  forall w, exists seg,
      trace (final (vm_create_wait_ping env fuel name false w)) = trace w ++ seg /\
      match vm_create_wait_ping env fuel name false w with
      | Returned _ _ =>
          exists seg', seg = seg' ++ [ESleep 2] /\ existsb is_sleep seg' = false
      | _ => existsb is_sleep seg = false
      end.
Proof.
  induction fuel as [|fuel IH]; intros w.
  - exists []. split; [symmetry; apply app_nil_r | reflexivity].
  - rewrite wait_ping_round, ping_attempt_run.
    destruct (servers_list env name (n_query w)) as [[|server1 rest]|e].
    + destruct (IH (record (EQuery name (Ok [])) w)) as (seg & Ht & Hl).
      exists (EQuery name (Ok []) :: seg).
      split; [rewrite Ht; tidy_trace; reflexivity|].
      destruct (vm_create_wait_ping env fuel name false _); [|exact Hl|exact Hl].
      destruct Hl as (seg' & -> & Hq).
      exists (EQuery name (Ok []) :: seg'). split; [reflexivity | exact Hq].
    + cbv zeta.
      destruct (ping_exit env (reported_ip server1) (n_ping w)) as [rc|e].
      * destruct (rc =? 0).
        -- eexists [_; _; _]. split; [tidy_trace; reflexivity|].
           eexists [_; _]. split; reflexivity.
        -- match goal with
           | |- context [vm_create_wait_ping env fuel name false ?w1] =>
               destruct (IH w1) as (seg & Ht & Hl);
               destruct (vm_create_wait_ping env fuel name false w1)
           end;
           (eexists (_ :: _ :: seg);
            split; [simpl in Ht |- *; rewrite Ht; tidy_trace; reflexivity|]);
           try exact Hl.
           destruct Hl as (seg' & -> & Hq).
           eexists (_ :: _ :: seg'). split; [reflexivity | exact Hq].
      * match goal with
        | |- context [vm_create_wait_ping env fuel name false ?w1] =>
            destruct (IH w1) as (seg & Ht & Hl);
            destruct (vm_create_wait_ping env fuel name false w1)
        end;
        (eexists (_ :: _ :: seg);
         split; [simpl in Ht |- *; rewrite Ht; tidy_trace; reflexivity|]);
        try exact Hl.
        destruct Hl as (seg' & -> & Hq).
        eexists (_ :: _ :: seg'). split; [reflexivity | exact Hq].
    + destruct (IH (record (EQuery name (Err e)) w)) as (seg & Ht & Hl).
      exists (EQuery name (Err e) :: seg).
      split; [rewrite Ht; tidy_trace; reflexivity|].
      destruct (vm_create_wait_ping env fuel name false _); [|exact Hl|exact Hl].
      destruct Hl as (seg' & -> & Hq).
      exists (EQuery name (Err e) :: seg'). split; [reflexivity | exact Hq].
Qed.

Lemma delete_wait_never_sleeps (fuel : nat) :
  forall w, exists seg,
      trace (final (vm_delete_wait env fuel name w)) = trace w ++ seg /\
      existsb is_sleep seg = false.
Proof.
  induction fuel as [|fuel IH]; intros w.
  - exists []. split; [symmetry; apply app_nil_r | reflexivity].
  - rewrite delete_wait_round.
    destruct (servers_list env name (n_query w)) as [[|server0 rest]|e];
      try (eexists [_]; split; reflexivity).
    + destruct (IH (record (EQuery name (Ok (server0 :: rest))) w))
        as (seg & Ht & Hl).
      exists (EQuery name (Ok (server0 :: rest)) :: seg).
      split; [rewrite Ht; tidy_trace; reflexivity | exact Hl].
    + destruct (is_TypeError e); eexists [_]; split; reflexivity.
Qed.

End Cadence.

(** C4, as the code has it.  In every run of a wait, from any world and
    with any fuel: the waits of stop and start log status queries that are
    one second of sleep apart; create's status wait sleeps one second
    after each query that listed the VM and goes straight to the next query
    after any other; create's reachability wait sleeps only as its very
    last step, the two seconds that follow the successful ping; delete's
    wait never sleeps. *)
Theorem waits_cadence
        (env : Env) (name : string) (fuel : nat) (status : string) (w : World) :
  (exists seg,
      trace (final (vm_stop_wait env fuel name w)) = trace w ++ seg /\
      spaced 1 seg = true) /\
  (exists seg,
      trace (final (vm_start_wait env fuel name w)) = trace w ++ seg /\
      spaced 1 seg = true) /\
  (exists seg,
      trace (final (vm_create_wait_active env fuel name status w)) = trace w ++ seg /\
      status_wait_log seg = true) /\
  (exists seg,
      trace (final (vm_create_wait_ping env fuel name false w)) = trace w ++ seg /\
      existsb is_sleep (removelast seg) = false /\
      (forall w', vm_create_wait_ping env fuel name false w = Returned tt w' ->
                  exists seg', seg = seg' ++ [ESleep 2])) /\
  (exists seg,
      trace (final (vm_delete_wait env fuel name w)) = trace w ++ seg /\
      existsb is_sleep seg = false).
Proof.
  split; [apply stop_wait_spaced|].
  split; [apply start_wait_spaced|].
  split; [apply wait_active_log|].
  split; [|apply delete_wait_never_sleeps].
  destruct (wait_ping_sleeps env name fuel w) as (seg & Ht & Hl).
  exists seg. split; [exact Ht|].
  destruct (vm_create_wait_ping env fuel name false w) as [[] w1|e w1|w1].
  - destruct Hl as (seg' & -> & Hq). split.
    + rewrite removelast_last. exact Hq.
    + intros w' _. exists seg'. reflexivity.
  - split; [apply existsb_removelast, Hl | discriminate].
  - split; [apply existsb_removelast, Hl | discriminate].
Qed.

(** C4 as stated fails: while the VM is still listed, delete's wait asks
    again and again with no sleep in between. *)
Lemma delete_wait_polls_without_sleep :
  trace (final (vm_delete_wait Fake.lingering 3 "test-vm" world0)) =
    [EQuery "test-vm" (Ok [Fake.vm "ACTIVE" 1 "10.0.0.5"]);
     EQuery "test-vm" (Ok [Fake.vm "ACTIVE" 1 "10.0.0.5"]);
     EQuery "test-vm" (Ok [])] /\
  vm_delete_wait Fake.lingering 3 "test-vm" world0 =
    Returned tt (final (vm_delete_wait Fake.lingering 3 "test-vm" world0)) /\
  ~ paced 1 (vm_delete_wait Fake.lingering 3 "test-vm").
Proof.
  split; [vm_compute; reflexivity|]. split; [vm_compute; reflexivity|].
  intros H.
  specialize (H world0
                [EQuery "test-vm" (Ok [Fake.vm "ACTIVE" 1 "10.0.0.5"]);
                 EQuery "test-vm" (Ok [Fake.vm "ACTIVE" 1 "10.0.0.5"]);
                 EQuery "test-vm" (Ok [])]).
  assert (Ht : trace (final (vm_delete_wait Fake.lingering 3 "test-vm" world0)) =
               trace world0 ++
               [EQuery "test-vm" (Ok [Fake.vm "ACTIVE" 1 "10.0.0.5"]);
                EQuery "test-vm" (Ok [Fake.vm "ACTIVE" 1 "10.0.0.5"]);
                EQuery "test-vm" (Ok [])])
    by (vm_compute; reflexivity).
  apply H in Ht. vm_compute in Ht. discriminate.
Qed.

(** ** No timeout *)

Section NoTimeout.

Variable env : Env.
Variable name : string.


Ltac next H := rewrite Nat.add_succ_r in H; exact H.

Ltac later_below H :=
  let i := fresh "i" in
  let Hi := fresh "Hi" in
  intros i Hi; apply Nat.succ_lt_mono in Hi; specialize (H (S i) Hi);
  rewrite Nat.add_succ_r in H; exact H.

Ltac one_more :=
  match goal with
  | IH : exists w', _ = Returned tt w' /\ (_ <= _)%nat |- _ =>
      let w' := fresh "w'" in
      let Hr := fresh "Hr" in
      let Hq := fresh "Hq" in
      destruct IH as (w' & Hr & Hq); exists w'; split; [exact Hr|];
      simpl in Hq; lia
  end.




Lemma delete_wait_returns (n : nat) :
  forall fuel w,
    raises_TypeError (servers_list env name (n_query w + n)) = true ->
    (forall i, (i < n)%nat ->
               no_stray_failure (servers_list env name (n_query w + i)) = true) ->
    (n < fuel)%nat ->
    exists w', vm_delete_wait env fuel name w = Returned tt w' /\
               (n_query w' <= n_query w + S n)%nat.
Proof.
  induction n as [|n IH]; intros fuel w Hsat Hgo Hfuel;
    (destruct fuel as [|fuel]; [lia|]); rewrite delete_wait_round.
  - rewrite Nat.add_0_r in Hsat.
    destruct (servers_list env name (n_query w)) as [[|server0 rest]|e];
      simpl in Hsat; try discriminate; rewrite ?Hsat;
      (eexists; split; [reflexivity | simpl; lia]).
  - pose proof (Hgo 0%nat (Nat.lt_0_succ n)) as H0. rewrite Nat.add_0_r in H0.
    apply Nat.succ_lt_mono in Hfuel.
    destruct (servers_list env name (n_query w)) as [[|server0 rest]|e] eqn:Ha.
    + eexists; split; [reflexivity | simpl; lia].
    + specialize (IH fuel (record (EQuery name (Ok (server0 :: rest))) w)).
      assert (IH' := IH ltac:(next Hsat) ltac:(later_below Hgo) Hfuel).
      one_more.
    + simpl in H0. rewrite H0. eexists; split; [reflexivity | simpl; lia].
Qed.



Lemma power_wait_round (running : bool) (fuel : nat) (w : World) :
  power_wait env name running (S fuel) w =
  match servers_list env name (n_query w) with
  | Ok [] => Raised TypeError (record (EQuery name (Ok [])) w)
  | Ok (server0 :: rest) =>
      if Bool.eqb (srv_power_state server0 =? 1) running
      then Returned tt (record (EQuery name (Ok (server0 :: rest))) w)
      else power_wait env name running fuel
                      (record (ESleep 1)
                              (record (EQuery name (Ok (server0 :: rest))) w))
  | Err e => Raised e (record (EQuery name (Err e)) w)
  end.
Proof.
  destruct running; unfold power_wait;
    [rewrite start_wait_round | rewrite stop_wait_round];
    destruct (servers_list env name (n_query w)) as [[|server0 rest]|e];
    try reflexivity;
    destruct (srv_power_state server0 =? 1); reflexivity.
Qed.

Lemma power_wait_returns (running : bool) (n : nat) :
  forall fuel w,
    lists_power running (servers_list env name (n_query w + n)) = true ->
    (forall i, (i < n)%nat -> lists_vm (servers_list env name (n_query w + i)) = true) ->
    (n < fuel)%nat ->
    exists w', power_wait env name running fuel w = Returned tt w' /\
               (n_query w' <= n_query w + S n)%nat.
Proof.
  induction n as [|n IH]; intros fuel w Hsat Hgo Hfuel;
    (destruct fuel as [|fuel]; [lia|]); rewrite power_wait_round.
  - rewrite Nat.add_0_r in Hsat.
    destruct (servers_list env name (n_query w)) as [[|server0 rest]|e];
      simpl in Hsat; try discriminate.
    rewrite Hsat. eexists; split; [reflexivity | simpl; lia].
  - pose proof (Hgo 0%nat (Nat.lt_0_succ n)) as H0. rewrite Nat.add_0_r in H0.
    apply Nat.succ_lt_mono in Hfuel.
    destruct (servers_list env name (n_query w)) as [[|server0 rest]|e] eqn:Ha;
      simpl in H0; try discriminate.
    destruct (Bool.eqb (srv_power_state server0 =? 1) running).
    + eexists; split; [reflexivity | simpl; lia].
    + specialize (IH fuel (record (ESleep 1)
                                  (record (EQuery name (Ok (server0 :: rest))) w))).
      assert (IH' := IH ltac:(next Hsat) ltac:(later_below Hgo) Hfuel).
      one_more.
Qed.






End NoTimeout.







(** * Further properties of the operations *)

(** ** Logs *)

Lemma mutations_app (a b : list event) : mutations (a ++ b) = mutations a ++ mutations b.
Proof. apply flat_map_app. Qed.

Lemma printed_lines_app (a b : list event) :
  printed_lines (a ++ b) = printed_lines a ++ printed_lines b.
Proof. apply flat_map_app. Qed.

Lemma only_polls_quiet (t : list event) :
  only_polls t = true -> mutations t = [] /\ printed_lines t = [].
Proof.
  induction t as [|e t IH]; [split; reflexivity|].
  simpl. intros H. apply andb_true_iff in H as [He Ht].
  destruct (IH Ht) as [Hm Hp].
  destruct e; try discriminate; simpl; split; assumption.
Qed.

(** ** The status query *)

(** X1: [vm_status] makes one call, the server list, and nothing else,
    whatever the answer; it raises exactly when that call raises, with the
    same exception, and never on its own account. *)
Theorem vm_status_reads_once (env : Env) (name : string) (w : World) :
  let r := servers_list env name (n_query w) in
  final (vm_status env name w) = record (EQuery name r) w /\
  (forall e w', vm_status env name w = Raised e w' -> r = Err e) /\
  (forall e, r = Err e -> vm_status env name w = Raised e (record (EQuery name r) w)) /\
  (forall w', vm_status env name w <> Running w').
Proof.
  intros r. subst r. rewrite vm_status_run.
  destruct (servers_list env name (n_query w)) as [[|server0 rest]|e0];
    unfold lift, ret, raise; simpl;
    (split; [reflexivity|]); (split; [|split]);
    try (intros e w' H; congruence);
    try (intros e H; congruence);
    try (intros w' H; congruence).
Qed.

(** X2: the first server listed decides the whole dictionary, and the
    ['name'] entry is the name asked for.  The ['network'] entry is the
    label of the first network with the first address on it; when there is
    no network, or the first network has no address, both parts are empty
    strings: the label already found is dropped and no other network is
    looked at. *)
Theorem vm_status_first_match
        (env : Env) (name : string) (w : World) (server0 : Server)
        (others : list Server) :
  servers_list env name (n_query w) = Ok (server0 :: others) ->
  exists sd,
    vm_status env name w =
      Returned (Some sd) (record (EQuery name (Ok (server0 :: others))) w) /\
    sd_server sd = server0 /\ sd_id sd = srv_id server0 /\ sd_name sd = name /\
    sd_status sd = srv_status server0 /\
    sd_power_state sd = srv_power_state server0 /\
    (srv_addresses server0 = [] -> sd_network sd = ("", "")) /\
    (forall label nets,
        srv_addresses server0 = (label, []) :: nets -> sd_network sd = ("", "")) /\
    (forall label ip more nets,
        srv_addresses server0 = (label, ip :: more) :: nets ->
        sd_network sd = (label, ip)).
Proof.
  intros H. rewrite vm_status_run, H. simpl. eexists. split; [reflexivity|].
  simpl. unfold network_pair. repeat split.
  - intros ->. reflexivity.
  - intros label nets ->. reflexivity.
  - intros label ip more nets ->. reflexivity.
Qed.

Lemma vm_status_first_match_witness :
  exists sd,
    vm_status (Fake.scripted [] (Ok [Fake.unaddressed; Fake.vm "BUILD" 0 "10.0.0.5"]) [])
              "test-vm" world0 =
      Returned (Some sd)
               (record (EQuery "test-vm"
                               (Ok [Fake.unaddressed; Fake.vm "BUILD" 0 "10.0.0.5"]))
                       world0) /\
    sd_id sd = "0a12" /\ sd_name sd = "test-vm" /\ sd_network sd = ("", "").
Proof.
  destruct (vm_status_first_match
              (Fake.scripted [] (Ok [Fake.unaddressed; Fake.vm "BUILD" 0 "10.0.0.5"]) [])
              "test-vm" world0 Fake.unaddressed [Fake.vm "BUILD" 0 "10.0.0.5"] eq_refl)
    as (sd & Hrun & _ & Hid & Hname & _ & _ & _ & Hnone & _).
  exists sd. repeat split; try assumption.
  apply (Hnone "private" [("public", ["192.0.2.7"])]). reflexivity.
Defined.

(** X3: [main --status] for a name under which no server is listed raises
    [TypeError] (the loop over [None]) after the one status query; nothing
    is printed. *)
Theorem main_status_absent_raises
        (env : Env) (fuel : nat) (args : Args) (w : World) :
  a_cmd args = Some CmdStatus ->
  servers_list env (a_name args) (n_query w) = Ok [] ->
  main env fuel args w = Raised TypeError (record (EQuery (a_name args) (Ok [])) w) /\
  printed_lines (trace (final (main env fuel args w))) = printed_lines (trace w).
Proof.
  intros Hcmd Ha.
  assert (Hrun : main env fuel args w =
                 Raised TypeError (record (EQuery (a_name args) (Ok [])) w)).
  { unfold main. rewrite Hcmd. unfold bind. rewrite vm_status_run, Ha. reflexivity. }
  split; [exact Hrun|].
  rewrite Hrun. simpl. rewrite printed_lines_app. simpl. apply app_nil_r.
Qed.

Lemma main_status_absent_raises_witness :
  main Fake.empty 0 Fake.status_args world0 =
    Raised TypeError (record (EQuery "test-vm" (Ok [])) world0) /\
  printed_lines (trace (final (main Fake.empty 0 Fake.status_args world0))) =
    printed_lines (trace world0).
Proof.
  apply (main_status_absent_raises Fake.empty 0 Fake.status_args world0); reflexivity.
Defined.

(** ** What the waits do and leave alone *)

Section Polls.

Variable env : Env.
Variable name : string.

Ltac stop_here := eexists [_]; split; reflexivity.

Ltac go_on IH seg :=
  match goal with
  | |- exists _, trace (final (_ ?w1)) = _ /\ _ =>
      let s := fresh "seg" in
      let Ht := fresh "Ht" in
      let Hp := fresh "Hp" in
      destruct (IH w1) as (s & Ht & Hp);
      exists (seg ++ s);
      split; [rewrite Ht; tidy_trace; reflexivity | exact Hp]
  end.

Lemma power_wait_polls (running : bool) (fuel : nat) :
  forall w, exists seg,
      trace (final (power_wait env name running fuel w)) = trace w ++ seg /\
      only_polls seg = true.
Proof.
  induction fuel as [|fuel IH]; intros w.
  - exists []. split; [destruct running; symmetry; apply app_nil_r | reflexivity].
  - rewrite power_wait_round.
    destruct (servers_list env name (n_query w)) as [[|server0 rest]|e];
      try stop_here.
    destruct (Bool.eqb (srv_power_state server0 =? 1) running); [stop_here|].
    go_on IH [EQuery name (Ok (server0 :: rest)); ESleep 1].
Qed.

Lemma wait_active_polls (fuel : nat) :
  forall status w, exists seg,
      trace (final (vm_create_wait_active env fuel name status w)) = trace w ++ seg /\
      only_polls seg = true.
Proof.
  induction fuel as [|fuel IH]; intros status w.
  - exists []. split; [|reflexivity].
    simpl. destruct (String.eqb status "ACTIVE"); symmetry; apply app_nil_r.
  - destruct (String.eqb status "ACTIVE") eqn:Hs.
    + exists []. split; [|reflexivity].
      simpl. rewrite Hs. symmetry; apply app_nil_r.
    + rewrite wait_active_round by exact Hs.
      destruct (servers_list env name (n_query w)) as [[|server0 rest]|e].
      * go_on (IH status) [EQuery name (Ok [])].
      * go_on (IH (srv_status server0)) [EQuery name (Ok (server0 :: rest)); ESleep 1].
      * destruct (is_TypeError e); [|stop_here].
        go_on (IH status) [EQuery name (Err e)].
Qed.

Lemma wait_ping_polls (fuel : nat) :
  forall w, exists seg,
      trace (final (vm_create_wait_ping env fuel name false w)) = trace w ++ seg /\
      only_polls seg = true.
Proof.
  induction fuel as [|fuel IH]; intros w.
  - exists []. split; [symmetry; apply app_nil_r | reflexivity].
  - rewrite wait_ping_round, ping_attempt_run.
    destruct (servers_list env name (n_query w)) as [[|server1 rest]|e].
    + go_on IH [EQuery name (Ok [])].
    + cbv zeta.
      destruct (ping_exit env (reported_ip server1) (n_ping w)) as [rc|e].
      * destruct (rc =? 0).
        -- eexists [_; _; _]. split; [tidy_trace; reflexivity | reflexivity].
        -- go_on IH [EQuery name (Ok (server1 :: rest));
                     EPing (reported_ip server1) (Ok rc)].
      * go_on IH [EQuery name (Ok (server1 :: rest));
                  EPing (reported_ip server1) (Err e)].
    + go_on IH [EQuery name (Err e)].
Qed.

Lemma delete_wait_polls (fuel : nat) :
  forall w, exists seg,
      trace (final (vm_delete_wait env fuel name w)) = trace w ++ seg /\
      only_polls seg = true.
Proof.
  induction fuel as [|fuel IH]; intros w.
  - exists []. split; [symmetry; apply app_nil_r | reflexivity].
  - rewrite delete_wait_round.
    destruct (servers_list env name (n_query w)) as [[|server0 rest]|e];
      try stop_here.
    + go_on IH [EQuery name (Ok (server0 :: rest))].
    + destruct (is_TypeError e); stop_here.
Qed.

(** What a wait has seen when it returns. *)
Lemma power_wait_returned (running : bool) (fuel : nat) :
  forall w w',
    power_wait env name running fuel w = Returned tt w' ->
    exists pre server0 others,
      trace w' = trace w ++ pre ++ [EQuery name (Ok (server0 :: others))] /\
      Bool.eqb (srv_power_state server0 =? 1) running = true.
Proof.
  induction fuel as [|fuel IH]; intros w w' Hrun.
  - destruct running; discriminate.
  - rewrite power_wait_round in Hrun.
    destruct (servers_list env name (n_query w)) as [[|server0 rest]|e];
      try discriminate.
    destruct (Bool.eqb (srv_power_state server0 =? 1) running) eqn:Hp.
    + injection Hrun as <-. exists [], server0, rest. split; [reflexivity | exact Hp].
    + apply IH in Hrun. destruct Hrun as (pre & s & others & Ht & Hs).
      exists (EQuery name (Ok (server0 :: rest)) :: ESleep 1 :: pre), s, others.
      split; [rewrite Ht; tidy_trace; reflexivity | exact Hs].
Qed.

Lemma delete_wait_returned (fuel : nat) :
  forall w w',
    vm_delete_wait env fuel name w = Returned tt w' ->
    exists pre r,
      trace w' = trace w ++ pre ++ [EQuery name r] /\ raises_TypeError r = true.
Proof.
  induction fuel as [|fuel IH]; intros w w' Hrun; [discriminate|].
  rewrite delete_wait_round in Hrun.
  destruct (servers_list env name (n_query w)) as [[|server0 rest]|e].
  - injection Hrun as <-. exists [], (Ok []). split; reflexivity.
  - apply IH in Hrun. destruct Hrun as (pre & r & Ht & Hr).
    exists (EQuery name (Ok (server0 :: rest)) :: pre), r.
    split; [rewrite Ht; tidy_trace; reflexivity | exact Hr].
  - destruct (is_TypeError e) eqn:He; [|discriminate].
    injection Hrun as <-. exists [], (Err e). split; [reflexivity | exact He].
Qed.

End Polls.

Lemma output_app (a b : list event) : output (a ++ b) = output a ++ output b.
Proof. apply filter_app. Qed.

Lemma only_polls_silent (t : list event) :
  only_polls t = true ->
  mutations t = [] /\ existsb is_lookup t = false /\ output t = [].
Proof.
  induction t as [|e t IH]; [repeat split|].
  simpl. intros H. apply andb_true_iff in H as [He Ht].
  destruct (IH Ht) as (Hm & Hf & Ho).
  destruct e; try discriminate; unfold output; simpl; repeat split; assumption.
Qed.

Section StatusWaits.

Variable env : Env.
Variable name : string.

Ltac stop_here := eexists [_]; split; reflexivity.

Ltac go_on IH seg :=
  match goal with
  | |- exists _, trace (final (_ ?w1)) = _ /\ _ =>
      let s := fresh "seg" in
      let Ht := fresh "Ht" in
      let Hp := fresh "Hp" in
      destruct (IH w1) as (s & Ht & Hp);
      exists (seg ++ s);
      split; [rewrite Ht; tidy_trace; reflexivity | exact Hp]
  end.

Lemma power_wait_asks_and_sleeps (running : bool) (fuel : nat) :
  forall w, exists seg,
      trace (final (power_wait env name running fuel w)) = trace w ++ seg /\
      forallb is_query_or_sleep seg = true.
Proof.
  induction fuel as [|fuel IH]; intros w.
  - exists []. split; [destruct running; symmetry; apply app_nil_r | reflexivity].
  - rewrite power_wait_round.
    destruct (servers_list env name (n_query w)) as [[|server0 rest]|e];
      try stop_here.
    destruct (Bool.eqb (srv_power_state server0 =? 1) running); [stop_here|].
    go_on IH [EQuery name (Ok (server0 :: rest)); ESleep 1].
Qed.

Lemma wait_active_asks_and_sleeps (fuel : nat) :
  forall status w, exists seg,
      trace (final (vm_create_wait_active env fuel name status w)) = trace w ++ seg /\
      forallb is_query_or_sleep seg = true.
Proof.
  induction fuel as [|fuel IH]; intros status w.
  - exists []. split; [|reflexivity].
    simpl. destruct (String.eqb status "ACTIVE"); symmetry; apply app_nil_r.
  - destruct (String.eqb status "ACTIVE") eqn:Hs.
    + exists []. split; [|reflexivity].
      simpl. rewrite Hs. symmetry; apply app_nil_r.
    + rewrite wait_active_round by exact Hs.
      destruct (servers_list env name (n_query w)) as [[|server0 rest]|e].
      * go_on (IH status) [EQuery name (Ok [])].
      * go_on (IH (srv_status server0)) [EQuery name (Ok (server0 :: rest)); ESleep 1].
      * destruct (is_TypeError e); [|stop_here].
        go_on (IH status) [EQuery name (Err e)].
Qed.

Lemma delete_wait_asks_and_sleeps (fuel : nat) :
  forall w, exists seg,
      trace (final (vm_delete_wait env fuel name w)) = trace w ++ seg /\
      forallb is_query_or_sleep seg = true.
Proof.
  induction fuel as [|fuel IH]; intros w.
  - exists []. split; [symmetry; apply app_nil_r | reflexivity].
  - rewrite delete_wait_round.
    destruct (servers_list env name (n_query w)) as [[|server0 rest]|e];
      try stop_here.
    + go_on IH [EQuery name (Ok (server0 :: rest))].
    + destruct (is_TypeError e); stop_here.
Qed.

End StatusWaits.

(** X4: the waits leave the remote side alone.  Whatever the backend
    answers and however long they run, create's status wait and the waits
    of delete, stop and start add nothing to the log but status queries
    and sleeps; create's reachability wait sends no request that changes
    the remote side, makes no lookup and writes no output. *)
Theorem waits_only_poll
        (env : Env) (name : string) (fuel : nat) (status : string) (w : World) :
  (exists seg,
      trace (final (vm_create_wait_active env fuel name status w)) = trace w ++ seg /\
      forallb is_query_or_sleep seg = true) /\
  (exists seg,
      trace (final (vm_delete_wait env fuel name w)) = trace w ++ seg /\
      forallb is_query_or_sleep seg = true) /\
  (exists seg,
      trace (final (vm_stop_wait env fuel name w)) = trace w ++ seg /\
      forallb is_query_or_sleep seg = true) /\
  (exists seg,
      trace (final (vm_start_wait env fuel name w)) = trace w ++ seg /\
      forallb is_query_or_sleep seg = true) /\
  (exists seg,
      trace (final (vm_create_wait_ping env fuel name false w)) = trace w ++ seg /\
      mutations seg = [] /\ existsb is_lookup seg = false /\ output seg = []).
Proof.
  split; [apply wait_active_asks_and_sleeps|].
  split; [apply delete_wait_asks_and_sleeps|].
  split; [exact (power_wait_asks_and_sleeps env name false fuel w)|].
  split; [exact (power_wait_asks_and_sleeps env name true fuel w)|].
  destruct (wait_ping_polls env name fuel w) as (seg & Ht & Hp).
  exists seg. split; [exact Ht | apply only_polls_silent, Hp].
Qed.

(** ** Stopping, starting and deleting *)

Section Requests.

Variable env : Env.
Variable name : string.

Let answer (w : World) : result (list Server) := servers_list env name (n_query w).
Let asked (w : World) : World := record (EQuery name (answer w)) w.

Lemma vm_stop_run (fuel : nat) (w : World) :
  vm_stop env fuel name w =
  match answer w with
  | Ok [] => Raised TypeError (asked w)
  | Ok (server0 :: _) =>
      if srv_power_state server0 =? 1 then
        let m := ServerStop (srv_id server0) in
        match mutate env m (n_mut w) with
        | Ok r => vm_stop_wait env fuel name (record (EMutate m (Ok r)) (asked w))
        | Err e => Raised e (record (EMutate m (Err e)) (asked w))
        end
      else Returned tt (asked w)
  | Err e => Raised e (asked w)
  end.
Proof.
  subst answer asked. unfold vm_stop, bind. rewrite vm_status_run.
  destruct (servers_list env name (n_query w)) as [[|server0 rest]|e]; try reflexivity.
  simpl. destruct (srv_power_state server0 =? 1); [|reflexivity].
  unfold remote. simpl.
  destruct (mutate env (ServerStop (srv_id server0)) (n_mut w)); reflexivity.
Qed.

Lemma vm_start_run (fuel : nat) (w : World) :
  vm_start env fuel name w =
  match answer w with
  | Ok [] => Raised TypeError (asked w)
  | Ok (server0 :: _) =>
      if srv_power_state server0 =? 1 then Returned tt (asked w)
      else
        let m := ServerStart (srv_id server0) in
        match mutate env m (n_mut w) with
        | Ok r => vm_start_wait env fuel name (record (EMutate m (Ok r)) (asked w))
        | Err e => Raised e (record (EMutate m (Err e)) (asked w))
        end
  | Err e => Raised e (asked w)
  end.
Proof.
  subst answer asked. unfold vm_start, bind. rewrite vm_status_run.
  destruct (servers_list env name (n_query w)) as [[|server0 rest]|e]; try reflexivity.
  simpl. destruct (srv_power_state server0 =? 1); [reflexivity|].
  unfold remote. simpl.
  destruct (mutate env (ServerStart (srv_id server0)) (n_mut w)); reflexivity.
Qed.

Lemma vm_delete_run (fuel : nat) (w : World) :
  vm_delete env fuel name w =
  match answer w with
  | Ok [] => vm_delete_wait env fuel name (asked w)
  | Ok (server0 :: _) =>
      let m := ServerDelete (srv_id server0) in
      match mutate env m (n_mut w) with
      | Ok r => vm_delete_wait env fuel name (record (EMutate m (Ok r)) (asked w))
      | Err e =>
          if is_TypeError e
          then vm_delete_wait env fuel name (record (EMutate m (Err e)) (asked w))
          else Raised e (record (EMutate m (Err e)) (asked w))
      end
  | Err e => if is_TypeError e then vm_delete_wait env fuel name (asked w)
             else Raised e (asked w)
  end.
Proof.
  subst answer asked. unfold vm_delete, try_except. unfold bind at 1 2.
  rewrite vm_status_run.
  destruct (servers_list env name (n_query w)) as [[|server0 rest]|e]; simpl.
  - reflexivity.
  - unfold bind, remote. simpl.
    destruct (mutate env (ServerDelete (srv_id server0)) (n_mut w)) as [r|e];
      simpl; [reflexivity|].
    destruct (is_TypeError e); reflexivity.
  - destruct (is_TypeError e); reflexivity.
Qed.

End Requests.

(** X5: when the stop request ([vm_stop] on a running VM) or the start
    request ([vm_start] on a VM that is not running) raises, the exception
    leaves the function at once: no status query follows the failed
    request. *)
Theorem power_request_failure
        (env : Env) (name : string) (fuel : nat) (w : World)
        (server0 : Server) (others : list Server) (e : exn) :
  servers_list env name (n_query w) = Ok (server0 :: others) ->
  let asked := record (EQuery name (Ok (server0 :: others))) w in
  (srv_power_state server0 = 1 ->
   mutate env (ServerStop (srv_id server0)) (n_mut w) = Err e ->
   vm_stop env fuel name w =
   Raised e (record (EMutate (ServerStop (srv_id server0)) (Err e)) asked)) /\
  (srv_power_state server0 <> 1 ->
   mutate env (ServerStart (srv_id server0)) (n_mut w) = Err e ->
   vm_start env fuel name w =
   Raised e (record (EMutate (ServerStart (srv_id server0)) (Err e)) asked)).
Proof.
  intros Ha asked. subst asked. split; intros Hp Hm.
  - rewrite vm_stop_run, Ha, Hp. simpl. rewrite Hm. reflexivity.
  - rewrite vm_start_run, Ha. apply Z.eqb_neq in Hp. rewrite Hp.
    simpl. rewrite Hm. reflexivity.
Qed.

Lemma power_request_failure_witness :
  vm_stop (Fake.refusing (OtherError "Forbidden") (Fake.vm "ACTIVE" 1 "10.0.0.5"))
          5 "test-vm" world0 =
    Raised (OtherError "Forbidden")
           (record (EMutate (ServerStop "7c1f") (Err (OtherError "Forbidden")))
                   (record (EQuery "test-vm" (Ok [Fake.vm "ACTIVE" 1 "10.0.0.5"]))
                           world0)) /\
  vm_start (Fake.refusing (OtherError "Forbidden") (Fake.vm "SHUTOFF" 4 "10.0.0.5"))
           5 "test-vm" world0 =
    Raised (OtherError "Forbidden")
           (record (EMutate (ServerStart "7c1f") (Err (OtherError "Forbidden")))
                   (record (EQuery "test-vm" (Ok [Fake.vm "SHUTOFF" 4 "10.0.0.5"]))
                           world0)).
Proof.
  split.
  - apply (power_request_failure
             (Fake.refusing (OtherError "Forbidden") (Fake.vm "ACTIVE" 1 "10.0.0.5"))
             "test-vm" 5 world0 (Fake.vm "ACTIVE" 1 "10.0.0.5") []
             (OtherError "Forbidden")); reflexivity.
  - apply (power_request_failure
             (Fake.refusing (OtherError "Forbidden") (Fake.vm "SHUTOFF" 4 "10.0.0.5"))
             "test-vm" 5 world0 (Fake.vm "SHUTOFF" 4 "10.0.0.5") []
             (OtherError "Forbidden")); [reflexivity | discriminate | reflexivity].
Defined.

(** X6: when the delete request itself raises, [vm_delete] passes over a
    [TypeError] just as it does for an absent VM and goes on to wait for
    the VM to disappear; any other exception leaves [vm_delete] at once. *)
Theorem delete_request_failure
        (env : Env) (name : string) (fuel : nat) (w : World)
        (server0 : Server) (others : list Server) (e : exn) :
  servers_list env name (n_query w) = Ok (server0 :: others) ->
  mutate env (ServerDelete (srv_id server0)) (n_mut w) = Err e ->
  let w2 := record (EMutate (ServerDelete (srv_id server0)) (Err e))
                   (record (EQuery name (Ok (server0 :: others))) w) in
  vm_delete env fuel name w =
  if is_TypeError e then vm_delete_wait env fuel name w2 else Raised e w2.
Proof.
  intros Ha Hm w2. subst w2. rewrite vm_delete_run, Ha. simpl. rewrite Hm.
  reflexivity.
Qed.

Lemma delete_request_failure_witness :
  vm_delete (Fake.refusing (OtherError "Forbidden") (Fake.vm "ACTIVE" 1 "10.0.0.5"))
            5 "test-vm" world0 =
    Raised (OtherError "Forbidden")
           (record (EMutate (ServerDelete "7c1f") (Err (OtherError "Forbidden")))
                   (record (EQuery "test-vm" (Ok [Fake.vm "ACTIVE" 1 "10.0.0.5"]))
                           world0)) /\
  vm_delete (Fake.refusing TypeError (Fake.vm "ACTIVE" 1 "10.0.0.5"))
            5 "test-vm" world0 =
    vm_delete_wait (Fake.refusing TypeError (Fake.vm "ACTIVE" 1 "10.0.0.5"))
                   5 "test-vm"
                   (record (EMutate (ServerDelete "7c1f") (Err TypeError))
                           (record (EQuery "test-vm" (Ok [Fake.vm "ACTIVE" 1 "10.0.0.5"]))
                                   world0)).
Proof.
  split.
  - apply (delete_request_failure
             (Fake.refusing (OtherError "Forbidden") (Fake.vm "ACTIVE" 1 "10.0.0.5"))
             "test-vm" 5 world0 (Fake.vm "ACTIVE" 1 "10.0.0.5") []
             (OtherError "Forbidden")); reflexivity.
  - apply (delete_request_failure
             (Fake.refusing TypeError (Fake.vm "ACTIVE" 1 "10.0.0.5"))
             "test-vm" 5 world0 (Fake.vm "ACTIVE" 1 "10.0.0.5") [] TypeError);
      reflexivity.
Defined.

(** X7: what was last seen when a lifecycle operation returns.  [vm_stop]
    returns only right after a status query that listed the VM with a power
    state other than 1, [vm_start] only right after one that listed it with
    power state 1, and [vm_delete] only right after one on which the
    subscript raised [TypeError] (no server listed, or the client raised
    it). *)
Theorem lifecycle_returns_on_target
        (env : Env) (name : string) (fuel : nat) (w w' : World) :
  (vm_stop env fuel name w = Returned tt w' ->
   exists pre server0 others,
     trace w' = trace w ++ pre ++ [EQuery name (Ok (server0 :: others))] /\
     srv_power_state server0 <> 1) /\
  (vm_start env fuel name w = Returned tt w' ->
   exists pre server0 others,
     trace w' = trace w ++ pre ++ [EQuery name (Ok (server0 :: others))] /\
     srv_power_state server0 = 1) /\
  (vm_delete env fuel name w = Returned tt w' ->
   exists pre r,
     trace w' = trace w ++ pre ++ [EQuery name r] /\ raises_TypeError r = true).
Proof.
  split; [|split].
  - rewrite vm_stop_run.
    destruct (servers_list env name (n_query w)) as [[|server0 rest]|e];
      try discriminate.
    destruct (srv_power_state server0 =? 1) eqn:Hp.
    + cbv zeta.
      destruct (mutate env (ServerStop (srv_id server0)) (n_mut w)) as [r|e];
        [|discriminate].
      intros Hrun. apply (power_wait_returned env name false) in Hrun.
      destruct Hrun as (pre & s & others & Ht & Hs).
      exists (EQuery name (Ok (server0 :: rest))
                :: EMutate (ServerStop (srv_id server0)) (Ok r) :: pre), s, others.
      split; [rewrite Ht; tidy_trace; reflexivity|].
      destruct (srv_power_state s =? 1) eqn:E; [discriminate|].
      apply Z.eqb_neq, E.
    + intros Hrun. injection Hrun as <-. exists [], server0, rest.
      split; [reflexivity | apply Z.eqb_neq, Hp].
  - rewrite vm_start_run.
    destruct (servers_list env name (n_query w)) as [[|server0 rest]|e];
      try discriminate.
    destruct (srv_power_state server0 =? 1) eqn:Hp.
    + intros Hrun. injection Hrun as <-. exists [], server0, rest.
      split; [reflexivity | apply Z.eqb_eq, Hp].
    + cbv zeta.
      destruct (mutate env (ServerStart (srv_id server0)) (n_mut w)) as [r|e];
        [|discriminate].
      intros Hrun. apply (power_wait_returned env name true) in Hrun.
      destruct Hrun as (pre & s & others & Ht & Hs).
      exists (EQuery name (Ok (server0 :: rest))
                :: EMutate (ServerStart (srv_id server0)) (Ok r) :: pre), s, others.
      split; [rewrite Ht; tidy_trace; reflexivity|].
      destruct (srv_power_state s =? 1) eqn:E; [|discriminate].
      apply Z.eqb_eq, E.
  - rewrite vm_delete_run. intros Hrun.
    assert (Hwait : forall w1 seg,
               trace w1 = trace w ++ seg ->
               vm_delete_wait env fuel name w1 = Returned tt w' ->
               exists pre r,
                 trace w' = trace w ++ pre ++ [EQuery name r] /\
                 raises_TypeError r = true).
    { intros w1 seg Hseg Hw. apply delete_wait_returned in Hw.
      destruct Hw as (pre & r & Ht & Hr). exists (seg ++ pre), r.
      split; [rewrite Ht, Hseg, <- !app_assoc; reflexivity | exact Hr]. }
    destruct (servers_list env name (n_query w)) as [[|server0 rest]|e].
    + eapply Hwait; [|exact Hrun]. reflexivity.
    + cbv zeta in Hrun.
      destruct (mutate env (ServerDelete (srv_id server0)) (n_mut w)) as [r|e].
      * eapply Hwait; [|exact Hrun]. tidy_trace. reflexivity.
      * destruct (is_TypeError e); [|discriminate].
        eapply Hwait; [|exact Hrun]. tidy_trace. reflexivity.
    + destruct (is_TypeError e); [|discriminate].
      eapply Hwait; [|exact Hrun]. reflexivity.
Qed.

Lemma lifecycle_returns_on_target_witness :
  (exists pre server0 others,
      trace (final (vm_stop Fake.stopping 3 "test-vm" world0)) =
        trace world0 ++ pre ++ [EQuery "test-vm" (Ok (server0 :: others))] /\
      srv_power_state server0 <> 1) /\
  (exists pre server0 others,
      trace (final (vm_start Fake.booting 3 "test-vm" world0)) =
        trace world0 ++ pre ++ [EQuery "test-vm" (Ok (server0 :: others))] /\
      srv_power_state server0 = 1) /\
  (exists pre r,
      trace (final (vm_delete Fake.lingering 3 "test-vm" world0)) =
        trace world0 ++ pre ++ [EQuery "test-vm" r] /\
      raises_TypeError r = true).
Proof.
  split; [|split].
  - apply (lifecycle_returns_on_target Fake.stopping "test-vm" 3 world0).
    vm_compute. reflexivity.
  - apply (lifecycle_returns_on_target Fake.booting "test-vm" 3 world0).
    vm_compute. reflexivity.
  - apply (lifecycle_returns_on_target Fake.lingering "test-vm" 3 world0).
    vm_compute. reflexivity.
Defined.

(** ** The operations from request to return *)

Section Completion.

Variable env : Env.
Variable name : string.

(** A wait that returned, put after what came before it. *)
Lemma after_request (wait : M unit) (w w2 w' : World) (done : list event) :
  trace w2 = trace w ++ done ->
  (exists seg, trace (final (wait w2)) = trace w2 ++ seg /\ only_polls seg = true) ->
  wait w2 = Returned tt w' ->
  exists seg, trace w' = trace w ++ seg /\ mutations seg = mutations done.
Proof.
  intros Hdone (seg & Ht & Hp) Hrun. rewrite Hrun in Ht. simpl in Ht.
  exists (done ++ seg). split.
  - rewrite Ht, Hdone, <- app_assoc. reflexivity.
  - rewrite mutations_app. destruct (only_polls_quiet seg Hp) as [-> _].
    apply app_nil_r.
Qed.

(** X8: [vm_stop] on a running VM whose stop request is accepted.  If the
    VM stays listed while it is still running and the status query number
    [n] after the request (counting from 0) lists it with a power state
    other than 1, then [vm_stop] returns for every fuel above [n]; it sent
    exactly one request, the stop of the first server listed, and made at
    most [n + 2] status queries. *)
Theorem vm_stop_completes (fuel n : nat) (w : World) (server0 : Server)
      (others : list Server) (r : string) :
  servers_list env name (n_query w) = Ok (server0 :: others) ->
  srv_power_state server0 = 1 ->
  mutate env (ServerStop (srv_id server0)) (n_mut w) = Ok r ->
  lists_power false (servers_list env name (n_query w + S n)) = true ->
  (forall i, (i < n)%nat -> lists_vm (servers_list env name (n_query w + S i)) = true) ->
  (n < fuel)%nat ->
  exists w' seg,
    vm_stop env fuel name w = Returned tt w' /\
    trace w' = trace w ++ seg /\
    mutations seg = [ServerStop (srv_id server0)] /\
    (n_query w' <= n_query w + S (S n))%nat.
Proof.
  intros Ha Hp Hm Hsat Hgo Hfuel.
  rewrite vm_stop_run, Ha, Hp. simpl. rewrite Hm.
  set (w2 := record (EMutate (ServerStop (srv_id server0)) (Ok r))
                    (record (EQuery name (Ok (server0 :: others))) w)).
  destruct (power_wait_returns env name false n fuel w2) as (w' & Hrun & Hq).
  - simpl. rewrite Nat.add_succ_r in Hsat. exact Hsat.
  - intros i Hi. specialize (Hgo i Hi). rewrite Nat.add_succ_r in Hgo. exact Hgo.
  - exact Hfuel.
  - destruct (after_request (power_wait env name false fuel) w w2 w'
                            [EQuery name (Ok (server0 :: others));
                             EMutate (ServerStop (srv_id server0)) (Ok r)])
      as (seg & Ht & Hmut).
    + subst w2. tidy_trace. reflexivity.
    + apply power_wait_polls.
    + exact Hrun.
    + exists w', seg. repeat split; try assumption. simpl in Hq. lia.
Qed.

(** X9: [vm_start] on a VM that is not running and whose start request is
    accepted.  If the VM stays listed and the status query number [n]
    after the request lists it with power state 1, then [vm_start] returns
    for every fuel above [n]; it sent exactly one request, the start of the
    first server listed, and made at most [n + 2] status queries. *)
Theorem vm_start_completes (fuel n : nat) (w : World) (server0 : Server)
      (others : list Server) (r : string) :
  servers_list env name (n_query w) = Ok (server0 :: others) ->
  srv_power_state server0 <> 1 ->
  mutate env (ServerStart (srv_id server0)) (n_mut w) = Ok r ->
  lists_power true (servers_list env name (n_query w + S n)) = true ->
  (forall i, (i < n)%nat -> lists_vm (servers_list env name (n_query w + S i)) = true) ->
  (n < fuel)%nat ->
  exists w' seg,
    vm_start env fuel name w = Returned tt w' /\
    trace w' = trace w ++ seg /\
    mutations seg = [ServerStart (srv_id server0)] /\
    (n_query w' <= n_query w + S (S n))%nat.
Proof.
  intros Ha Hp Hm Hsat Hgo Hfuel.
  rewrite vm_start_run, Ha. apply Z.eqb_neq in Hp. rewrite Hp. simpl. rewrite Hm.
  set (w2 := record (EMutate (ServerStart (srv_id server0)) (Ok r))
                    (record (EQuery name (Ok (server0 :: others))) w)).
  destruct (power_wait_returns env name true n fuel w2) as (w' & Hrun & Hq).
  - simpl. rewrite Nat.add_succ_r in Hsat. exact Hsat.
  - intros i Hi. specialize (Hgo i Hi). rewrite Nat.add_succ_r in Hgo. exact Hgo.
  - exact Hfuel.
  - destruct (after_request (power_wait env name true fuel) w w2 w'
                            [EQuery name (Ok (server0 :: others));
                             EMutate (ServerStart (srv_id server0)) (Ok r)])
      as (seg & Ht & Hmut).
    + subst w2. tidy_trace. reflexivity.
    + apply power_wait_polls.
    + exact Hrun.
    + exists w', seg. repeat split; try assumption. simpl in Hq. lia.
Qed.

(** X10: [vm_delete] on a listed VM whose delete request is accepted.  If
    the status query number [n] after the request finds no server (or
    raises [TypeError]) and no earlier one raises anything else, then
    [vm_delete] returns for every fuel above [n]; it sent exactly one
    request, the deletion of the first server listed, and made at most
    [n + 2] status queries. *)
Theorem vm_delete_completes (fuel n : nat) (w : World) (server0 : Server)
      (others : list Server) (r : string) :
  servers_list env name (n_query w) = Ok (server0 :: others) ->
  mutate env (ServerDelete (srv_id server0)) (n_mut w) = Ok r ->
  raises_TypeError (servers_list env name (n_query w + S n)) = true ->
  (forall i, (i < n)%nat ->
             no_stray_failure (servers_list env name (n_query w + S i)) = true) ->
  (n < fuel)%nat ->
  exists w' seg,
    vm_delete env fuel name w = Returned tt w' /\
    trace w' = trace w ++ seg /\
    mutations seg = [ServerDelete (srv_id server0)] /\
    (n_query w' <= n_query w + S (S n))%nat.
Proof.
  intros Ha Hm Hsat Hgo Hfuel.
  rewrite vm_delete_run, Ha. simpl. rewrite Hm.
  set (w2 := record (EMutate (ServerDelete (srv_id server0)) (Ok r))
                    (record (EQuery name (Ok (server0 :: others))) w)).
  destruct (delete_wait_returns env name n fuel w2) as (w' & Hrun & Hq).
  - simpl. rewrite Nat.add_succ_r in Hsat. exact Hsat.
  - intros i Hi. specialize (Hgo i Hi). rewrite Nat.add_succ_r in Hgo. exact Hgo.
  - exact Hfuel.
  - destruct (after_request (vm_delete_wait env fuel name) w w2 w'
                            [EQuery name (Ok (server0 :: others));
                             EMutate (ServerDelete (srv_id server0)) (Ok r)])
      as (seg & Ht & Hmut).
    + subst w2. tidy_trace. reflexivity.
    + apply delete_wait_polls.
    + exact Hrun.
    + exists w', seg. repeat split; try assumption. simpl in Hq. lia.
Qed.

End Completion.

Lemma vm_stop_completes_witness :
  exists w' seg,
    vm_stop Fake.stopping 2 "test-vm" world0 = Returned tt w' /\
    trace w' = trace world0 ++ seg /\
    mutations seg = [ServerStop "7c1f"] /\
    (n_query w' <= n_query world0 + 3)%nat.
Proof.
  apply (vm_stop_completes Fake.stopping "test-vm" 2 1 world0
                           (Fake.vm "ACTIVE" 1 "10.0.0.5") [] "");
    try reflexivity; [|lia].
  intros i Hi. destruct i as [|i]; [reflexivity | lia].
Defined.

Lemma vm_start_completes_witness :
  exists w' seg,
    vm_start Fake.booting 1 "test-vm" world0 = Returned tt w' /\
    trace w' = trace world0 ++ seg /\
    mutations seg = [ServerStart "7c1f"] /\
    (n_query w' <= n_query world0 + 2)%nat.
Proof.
  apply (vm_start_completes Fake.booting "test-vm" 1 0 world0
                            (Fake.vm "SHUTOFF" 4 "10.0.0.5") [] "");
    try reflexivity; [discriminate | | lia].
  intros i Hi. lia.
Defined.

Lemma vm_delete_completes_witness :
  exists w' seg,
    vm_delete Fake.lingering 2 "test-vm" world0 = Returned tt w' /\
    trace w' = trace world0 ++ seg /\
    mutations seg = [ServerDelete "7c1f"] /\
    (n_query w' <= n_query world0 + 3)%nat.
Proof.
  apply (vm_delete_completes Fake.lingering "test-vm" 2 1 world0
                             (Fake.vm "ACTIVE" 1 "10.0.0.5") [] "");
    try reflexivity; [|lia].
  intros i Hi. destruct i as [|i]; [reflexivity | lia].
Defined.

(** ** What each operation sends and prints, however it ends *)

Section Budget.

Variable env : Env.
Variable name : string.

(** A wait put after what came before it, however the wait ends. *)
Lemma after_any (wait : M unit) (w w2 : World) (done : list event) :
  trace w2 = trace w ++ done ->
  (exists seg, trace (final (wait w2)) = trace w2 ++ seg /\ only_polls seg = true) ->
  exists seg,
    trace (final (wait w2)) = trace w ++ seg /\
    mutations seg = mutations done /\
    output seg = output done.
Proof.
  intros Hdone (seg & Ht & Hp).
  destruct (only_polls_silent seg Hp) as (Hm & _ & Hl).
  exists (done ++ seg). split; [|split].
  - rewrite Ht, Hdone, <- app_assoc. reflexivity.
  - rewrite mutations_app, Hm. apply app_nil_r.
  - rewrite output_app, Hl. apply app_nil_r.
Qed.

Lemma vm_stop_log (fuel : nat) (w : World) :
  exists seg,
    trace (final (vm_stop env fuel name w)) = trace w ++ seg /\
    output seg = [] /\
    (mutations seg = [] \/ exists id, mutations seg = [ServerStop id]).
Proof.
  rewrite vm_stop_run.
  destruct (servers_list env name (n_query w)) as [[|server0 rest]|e];
    try (eexists [_]; split; [reflexivity | split; [reflexivity | left; reflexivity]]).
  destruct (srv_power_state server0 =? 1);
    [|eexists [_]; split; [reflexivity | split; [reflexivity | left; reflexivity]]].
  cbv zeta.
  destruct (mutate env (ServerStop (srv_id server0)) (n_mut w)) as [r|e].
  - destruct (after_any (power_wait env name false fuel) w
                        (record (EMutate (ServerStop (srv_id server0)) (Ok r))
                                (record (EQuery name (Ok (server0 :: rest))) w))
                        [EQuery name (Ok (server0 :: rest));
                         EMutate (ServerStop (srv_id server0)) (Ok r)])
      as (seg & Ht & Hm & Hl);
      [tidy_trace; reflexivity | apply power_wait_polls |].
    exists seg. split; [exact Ht | split; [exact Hl | right; eexists; exact Hm]].
  - eexists [_; _]. split; [tidy_trace; reflexivity|].
    split; [reflexivity | right; eexists; reflexivity].
Qed.

Lemma vm_start_log (fuel : nat) (w : World) :
  exists seg,
    trace (final (vm_start env fuel name w)) = trace w ++ seg /\
    output seg = [] /\
    (mutations seg = [] \/ exists id, mutations seg = [ServerStart id]).
Proof.
  rewrite vm_start_run.
  destruct (servers_list env name (n_query w)) as [[|server0 rest]|e];
    try (eexists [_]; split; [reflexivity | split; [reflexivity | left; reflexivity]]).
  destruct (srv_power_state server0 =? 1);
    [eexists [_]; split; [reflexivity | split; [reflexivity | left; reflexivity]]|].
  cbv zeta.
  destruct (mutate env (ServerStart (srv_id server0)) (n_mut w)) as [r|e].
  - destruct (after_any (power_wait env name true fuel) w
                        (record (EMutate (ServerStart (srv_id server0)) (Ok r))
                                (record (EQuery name (Ok (server0 :: rest))) w))
                        [EQuery name (Ok (server0 :: rest));
                         EMutate (ServerStart (srv_id server0)) (Ok r)])
      as (seg & Ht & Hm & Hl);
      [tidy_trace; reflexivity | apply power_wait_polls |].
    exists seg. split; [exact Ht | split; [exact Hl | right; eexists; exact Hm]].
  - eexists [_; _]. split; [tidy_trace; reflexivity|].
    split; [reflexivity | right; eexists; reflexivity].
Qed.

Lemma vm_delete_log (fuel : nat) (w : World) :
  exists seg,
    trace (final (vm_delete env fuel name w)) = trace w ++ seg /\
    output seg = [] /\
    (mutations seg = [] \/ exists id, mutations seg = [ServerDelete id]).
Proof.
  rewrite vm_delete_run.
  assert (Hwait : forall w2 done,
             trace w2 = trace w ++ done ->
             output done = [] ->
             (mutations done = [] \/ exists id, mutations done = [ServerDelete id]) ->
             exists seg,
               trace (final (vm_delete_wait env fuel name w2)) = trace w ++ seg /\
               output seg = [] /\
               (mutations seg = [] \/ exists id, mutations seg = [ServerDelete id])).
  { intros w2 done Hdone Hl Hm.
    destruct (after_any (vm_delete_wait env fuel name) w w2 done Hdone
                        (delete_wait_polls env name fuel w2)) as (seg & Ht & Hm' & Hl').
    exists seg. split; [exact Ht|]. rewrite Hl', Hm'. split; assumption. }
  destruct (servers_list env name (n_query w)) as [[|server0 rest]|e].
  - apply (Hwait _ [EQuery name (Ok [])]); [reflexivity | reflexivity | left; reflexivity].
  - cbv zeta.
    destruct (mutate env (ServerDelete (srv_id server0)) (n_mut w)) as [r|e].
    + apply (Hwait _ [EQuery name (Ok (server0 :: rest));
                      EMutate (ServerDelete (srv_id server0)) (Ok r)]);
        [tidy_trace; reflexivity | reflexivity | right; eexists; reflexivity].
    + destruct (is_TypeError e).
      * apply (Hwait _ [EQuery name (Ok (server0 :: rest));
                        EMutate (ServerDelete (srv_id server0)) (Err e)]);
          [tidy_trace; reflexivity | reflexivity | right; eexists; reflexivity].
      * eexists [_; _]. split; [tidy_trace; reflexivity|].
        split; [reflexivity | right; eexists; reflexivity].
  - destruct (is_TypeError e).
    + apply (Hwait _ [EQuery name (Err e)]);
        [reflexivity | reflexivity | left; reflexivity].
    + eexists [_]. split; [reflexivity | split; [reflexivity | left; reflexivity]].
Qed.

(** The two waits of [vm_create], one after the other. *)
Lemma create_waits_poll (fuel : nat) (w : World) :
  exists seg,
    trace (final ((vm_create_wait_active env fuel name "" ;;
                   vm_create_wait_ping env fuel name false) w)) = trace w ++ seg /\
    only_polls seg = true.
Proof.
  unfold bind.
  destruct (wait_active_polls env name fuel "" w) as (seg1 & Ht1 & Hp1).
  destruct (vm_create_wait_active env fuel name "" w) as [[] wb|e wb|wb];
    try (exists seg1; split; assumption).
  simpl in Ht1.
  destruct (wait_ping_polls env name fuel wb) as (seg2 & Ht2 & Hp2).
  exists (seg1 ++ seg2). split.
  - rewrite Ht2, Ht1, <- app_assoc. reflexivity.
  - unfold only_polls in *. rewrite forallb_app, Hp1, Hp2. reflexivity.
Qed.

Lemma vm_create_log (fuel : nat) (image key_pair flavor network : string) (w : World) :
  exists seg,
    trace (final (vm_create env fuel name image key_pair flavor network w))
      = trace w ++ seg /\
    output seg = [] /\
    (mutations seg = [] \/
     exists image_id flavor_id net_id,
       mutations seg = [ServersCreate name image_id flavor_id net_id key_pair]).
Proof.
  unfold vm_create. unfold bind at 1 2 3 4. unfold nova_find_call, remote.
  destruct (nova_find env Networks network (n_find w)) as [net_id|e]; simpl;
    [|eexists [_]; split; [reflexivity | split; [reflexivity | left; reflexivity]]].
  destruct (nova_find env Images image (S (n_find w))) as [img|e]; simpl;
    [|eexists [_; _]; split; [tidy_trace; reflexivity
                             | split; [reflexivity | left; reflexivity]]].
  destruct (nova_find env Flavors flavor (S (S (n_find w)))) as [flv|e]; simpl;
    [|eexists [_; _; _]; split; [tidy_trace; reflexivity
                                | split; [reflexivity | left; reflexivity]]].
  destruct (mutate env (ServersCreate name img flv net_id key_pair) (n_mut w))
    as [made|e]; simpl;
    [|eexists [_; _; _; _]; split; [tidy_trace; reflexivity
                                   | split; [reflexivity | right; do 3 eexists; reflexivity]]].
  match goal with
  | |- context [bind _ _ ?wa] =>
      destruct (after_any (vm_create_wait_active env fuel name "" ;;
                           vm_create_wait_ping env fuel name false) w wa
                          [EFind Networks network (Ok net_id);
                           EFind Images image (Ok img);
                           EFind Flavors flavor (Ok flv);
                           EMutate (ServersCreate name img flv net_id key_pair) (Ok made)])
        as (seg & Ht & Hm & Hl);
      [tidy_trace; reflexivity | apply create_waits_poll |]
  end.
  exists seg. split; [exact Ht | split; [exact Hl | right; do 3 eexists; exact Hm]].
Qed.

End Budget.

(** X11: however a VM operation ends (returned, raised, or still waiting),
    it has sent at most one request that changes the remote side, and only
    of its own kind: [vm_create] a server creation under the given name and
    key pair, [vm_delete] a deletion, [vm_stop] a stop, [vm_start] a start.
    None of them writes anything to standard output. *)
Theorem vm_operations_send_one_request
        (env : Env) (name : string) (fuel : nat)
        (image key_pair flavor network : string) (w : World) :
  (exists seg,
      trace (final (vm_create env fuel name image key_pair flavor network w))
        = trace w ++ seg /\
      output seg = [] /\
      (mutations seg = [] \/
       exists image_id flavor_id net_id,
         mutations seg = [ServersCreate name image_id flavor_id net_id key_pair])) /\
  (exists seg,
      trace (final (vm_delete env fuel name w)) = trace w ++ seg /\
      output seg = [] /\
      (mutations seg = [] \/ exists id, mutations seg = [ServerDelete id])) /\
  (exists seg,
      trace (final (vm_stop env fuel name w)) = trace w ++ seg /\
      output seg = [] /\
      (mutations seg = [] \/ exists id, mutations seg = [ServerStop id])) /\
  (exists seg,
      trace (final (vm_start env fuel name w)) = trace w ++ seg /\
      output seg = [] /\
      (mutations seg = [] \/ exists id, mutations seg = [ServerStart id])).
Proof.
  split; [apply vm_create_log|].
  split; [apply vm_delete_log|].
  split; [apply vm_stop_log | apply vm_start_log].
Qed.

(** ** Creation from request to return *)

(** X12: [vm_create] looks up the network, the image and the flavor, in
    this order, before it asks for the server.  When one of the lookups
    raises, [vm_create] raises the same exception, no request has been sent
    and no status query made.  When the creation request raises, the
    exception leaves [vm_create] before any status query or ping. *)
Theorem vm_create_stops_at_first_failure
        (env : Env) (fuel : nat) (name image key_pair flavor network : string)
        (w : World) (e : exn) :
  (nova_find env Networks network (n_find w) = Err e \/
   (exists net_id,
       nova_find env Networks network (n_find w) = Ok net_id /\
       nova_find env Images image (S (n_find w)) = Err e) \/
   (exists net_id image_id,
       nova_find env Networks network (n_find w) = Ok net_id /\
       nova_find env Images image (S (n_find w)) = Ok image_id /\
       nova_find env Flavors flavor (S (S (n_find w))) = Err e) ->
   exists w',
     vm_create env fuel name image key_pair flavor network w = Raised e w' /\
     n_mut w' = n_mut w /\ mutations (trace w') = mutations (trace w) /\
     n_query w' = n_query w /\ n_ping w' = n_ping w) /\
  (forall net_id image_id flavor_id,
      nova_find env Networks network (n_find w) = Ok net_id ->
      nova_find env Images image (S (n_find w)) = Ok image_id ->
      nova_find env Flavors flavor (S (S (n_find w))) = Ok flavor_id ->
      mutate env (ServersCreate name image_id flavor_id net_id key_pair) (n_mut w)
        = Err e ->
      exists w',
        vm_create env fuel name image key_pair flavor network w = Raised e w' /\
        n_query w' = n_query w /\ n_ping w' = n_ping w).
Proof.
  unfold vm_create, bind, nova_find_call, remote. split.
  - intros [H1 | [(net_id & H1 & H2) | (net_id & image_id & H1 & H2 & H3)]].
    + rewrite H1. simpl. eexists. split; [reflexivity|]. simpl.
      rewrite mutations_app, app_nil_r. repeat split.
    + rewrite H1. simpl. rewrite H2. simpl. eexists. split; [reflexivity|]. simpl.
      rewrite !mutations_app, !app_nil_r. repeat split.
    + rewrite H1. simpl. rewrite H2. simpl. rewrite H3. simpl.
      eexists. split; [reflexivity|]. simpl.
      rewrite !mutations_app, !app_nil_r. repeat split.
  - intros net_id image_id flavor_id H1 H2 H3 H4.
    rewrite H1. simpl. rewrite H2. simpl. rewrite H3. simpl. rewrite H4. simpl.
    eexists. repeat split.
Qed.

Section Settling.

Variable env : Env.
Variable name : string.

(** From the [Nq]-th status query on the VM is listed, and from the
    [Np]-th ping on every ping exits with 0. *)
Variables Nq Np : nat.
Hypothesis listed_from : forall k, (Nq <= k)%nat -> lists_vm (servers_list env name k) = true.
Hypothesis reachable_from : forall ip k, (Np <= k)%nat -> ping_exit env ip k = Ok 0.



End Settling.



Lemma vm_create_stops_at_first_failure_witness :
  (exists w',
      vm_create Fake.empty 5 "test-vm" "ubuntu16.04" "key" "g1.small" "private" world0
        = Raised NotFound w' /\
      n_mut w' = n_mut world0 /\ mutations (trace w') = mutations (trace world0) /\
      n_query w' = n_query world0 /\ n_ping w' = n_ping world0) /\
  (exists w',
      vm_create (Fake.refusing (OtherError "Forbidden") (Fake.vm "ACTIVE" 1 "10.0.0.5"))
                5 "test-vm" "ubuntu16.04" "key" "g1.small" "private" world0
        = Raised (OtherError "Forbidden") w' /\
      n_query w' = n_query world0 /\ n_ping w' = n_ping world0).
Proof.
  split.
  - destruct (vm_create_stops_at_first_failure
                Fake.empty 5 "test-vm" "ubuntu16.04" "key" "g1.small" "private"
                world0 NotFound) as [Hlookup _].
    apply Hlookup. right. left. exists "id". split; reflexivity.
  - destruct (vm_create_stops_at_first_failure
                (Fake.refusing (OtherError "Forbidden") (Fake.vm "ACTIVE" 1 "10.0.0.5"))
                5 "test-vm" "ubuntu16.04" "key" "g1.small" "private"
                world0 (OtherError "Forbidden")) as [_ Hrequest].
    apply (Hrequest "id-of-private" "id-of-ubuntu16.04" "id-of-g1.small");
      reflexivity.
Defined.


(** ** Images, when something goes wrong *)

(** X14: the overwrite of [image_upload] is not atomic.  When an image of
    the name exists and is deleted, and the local file then cannot be
    opened, [image_upload] raises that error: the old image is gone and no
    new one has been created. *)
Theorem image_upload_loses_old_image
        (env : Env) (name imagefile : string) (w : World)
        (old rd : string) (e : exn) :
  nova_find env Images name (n_find w) = Ok old ->
  mutate env (GlanceDelete old) (n_mut w) = Ok rd ->
  open_file env imagefile (n_open w) = Err e ->
  exists w',
    image_upload env name imagefile w = Raised e w' /\
    trace w' = trace w ++ [EFind Images name (Ok old);
                           EMutate (GlanceDelete old) (Ok rd);
                           EOpen imagefile (Err e)] /\
    mutations (trace w') = mutations (trace w) ++ [GlanceDelete old].
Proof.
  intros Hf Hd Ho.
  unfold image_upload, image_delete, try_except, bind, nova_find_call, remote, open_call.
  rewrite Hf. simpl. rewrite Hd. simpl. rewrite Ho. simpl.
  eexists. split; [reflexivity|]. simpl. rewrite <- !app_assoc. simpl.
  split; [reflexivity|]. rewrite mutations_app. reflexivity.
Qed.

(** X15: only [NotFound] is passed over before an upload.  When the lookup
    of the name raises anything else (several images of that name, say),
    or when the deletion of the image found raises anything but
    [NotFound], [image_upload] raises that exception and goes no further:
    the file is not opened and nothing is created. *)
Theorem image_upload_stops_at_other_failures
        (env : Env) (name imagefile : string) (w : World) (e : exn) :
  is_NotFound e = false ->
  (nova_find env Images name (n_find w) = Err e ->
   image_upload env name imagefile w =
   Raised e (record (EFind Images name (Err e)) w)) /\
  (forall old,
      nova_find env Images name (n_find w) = Ok old ->
      mutate env (GlanceDelete old) (n_mut w) = Err e ->
      image_upload env name imagefile w =
      Raised e (record (EMutate (GlanceDelete old) (Err e))
                       (record (EFind Images name (Ok old)) w))).
Proof.
  intros He.
  unfold image_upload, image_delete, try_except, bind, nova_find_call, remote, open_call.
  split.
  - intros Hf. rewrite Hf. simpl. rewrite He. reflexivity.
  - intros old Hf Hd. rewrite Hf. simpl. rewrite Hd. simpl. rewrite He. reflexivity.
Qed.

Lemma image_upload_loses_old_image_witness :
  exists w',
    image_upload Fake.no_file "unikernel" "/tmp/image.img" world0 =
      Raised (OtherError "IOError") w' /\
    trace w' = trace world0 ++ [EFind Images "unikernel" (Ok "id-of-unikernel");
                                EMutate (GlanceDelete "id-of-unikernel") (Ok "");
                                EOpen "/tmp/image.img" (Err (OtherError "IOError"))] /\
    mutations (trace w') = mutations (trace world0) ++ [GlanceDelete "id-of-unikernel"].
Proof.
  apply (image_upload_loses_old_image Fake.no_file "unikernel" "/tmp/image.img" world0
                                      "id-of-unikernel" "" (OtherError "IOError"));
    reflexivity.
Defined.

Lemma image_upload_stops_at_other_failures_witness :
  image_upload Fake.ambiguous "unikernel" "/tmp/image.img" world0 =
    Raised (OtherError "NoUniqueMatch")
           (record (EFind Images "unikernel" (Err (OtherError "NoUniqueMatch"))) world0) /\
  image_upload (Fake.refusing (OtherError "Forbidden") (Fake.vm "ACTIVE" 1 "10.0.0.5"))
               "unikernel" "/tmp/image.img" world0 =
    Raised (OtherError "Forbidden")
           (record (EMutate (GlanceDelete "id-of-unikernel") (Err (OtherError "Forbidden")))
                   (record (EFind Images "unikernel" (Ok "id-of-unikernel")) world0)).
Proof.
  split.
  - apply (image_upload_stops_at_other_failures
             Fake.ambiguous "unikernel" "/tmp/image.img" world0
             (OtherError "NoUniqueMatch")); reflexivity.
  - apply (image_upload_stops_at_other_failures
             (Fake.refusing (OtherError "Forbidden") (Fake.vm "ACTIVE" 1 "10.0.0.5"))
             "unikernel" "/tmp/image.img" world0 (OtherError "Forbidden"));
      reflexivity.
Defined.

(** ** Output *)

Lemma image_delete_quiet (env : Env) (name : string) (w : World) :
  exists seg,
    trace (final (image_delete env name w)) = trace w ++ seg /\
    output seg = [].
Proof.
  unfold image_delete, bind, nova_find_call, remote.
  destruct (nova_find env Images name (n_find w)) as [image|e]; simpl.
  - destruct (mutate env (GlanceDelete image) (n_mut w)); simpl;
      eexists [_; _]; (split; [tidy_trace; reflexivity | reflexivity]).
  - eexists [_]. split; reflexivity.
Qed.

Lemma image_upload_quiet (env : Env) (name imagefile : string) (w : World) :
  exists seg,
    trace (final (image_upload env name imagefile w)) = trace w ++ seg /\
    output seg = [].
Proof.
  unfold image_upload, image_delete, try_except, bind, nova_find_call, remote, open_call.
  split_answers; rewrite <- ?app_assoc; simpl;
    match goal with
    | |- exists seg, ?t ++ ?l = ?t ++ seg /\ _ => exists l; split; reflexivity
    end.
Qed.

(** X16: under [--delete], [--start], [--stop], [--create_image] and
    [--delete_image], [main] writes nothing to standard output, however
    the operation ends: no line, no status field, no usage text. *)
Theorem main_prints_only_for_create_and_status
        (env : Env) (fuel : nat) (args : Args) (cmd : command) (w : World) :
  a_cmd args = Some cmd ->
  cmd <> CmdCreate ->
  cmd <> CmdStatus ->
  output (trace (final (main env fuel args w))) = output (trace w).
Proof.
  intros Hcmd Hcreate Hstatus. unfold main. rewrite Hcmd.
  assert (Hquiet : forall (o : outcome unit),
             (exists seg, trace (final o) = trace w ++ seg /\ output seg = []) ->
             output (trace (final o)) = output (trace w)).
  { intros o (seg & Ht & Hl). rewrite Ht, output_app, Hl. apply app_nil_r. }
  destruct cmd; try congruence; apply Hquiet.
  - destruct (vm_delete_log env (a_name args) fuel w) as (seg & Ht & Hl & _).
    exists seg. split; assumption.
  - destruct (vm_start_log env (a_name args) fuel w) as (seg & Ht & Hl & _).
    exists seg. split; assumption.
  - destruct (vm_stop_log env (a_name args) fuel w) as (seg & Ht & Hl & _).
    exists seg. split; assumption.
  - apply image_upload_quiet.
  - apply image_delete_quiet.
Qed.

Lemma main_prints_only_for_create_and_status_witness :
  output (trace (final (main Fake.stopping 3 Fake.stop_args world0))) =
  output (trace world0).
Proof.
  apply (main_prints_only_for_create_and_status
           Fake.stopping 3 Fake.stop_args CmdStop world0);
    [reflexivity | discriminate | discriminate].
Defined.

(** ** A VM that vanishes during a wait *)

Lemma power_wait_vanishes (env : Env) (name : string) (running : bool) (n : nat) :
  forall fuel w,
    servers_list env name (n_query w + n) = Ok [] ->
    (forall i, (i < n)%nat ->
               lists_vm (servers_list env name (n_query w + i)) = true /\
               lists_power running (servers_list env name (n_query w + i)) = false) ->
    (n < fuel)%nat ->
    exists w', power_wait env name running fuel w = Raised TypeError w' /\
               n_query w' = (n_query w + S n)%nat /\
               n_mut w' = n_mut w.
Proof.
  induction n as [|n IH]; intros fuel w Hgone Hbefore Hfuel;
    (destruct fuel as [|fuel]; [lia|]); rewrite power_wait_round.
  - rewrite Nat.add_0_r in Hgone. rewrite Hgone.
    eexists. split; [reflexivity | simpl; split; [lia | reflexivity]].
  - destruct (Hbefore 0%nat (Nat.lt_0_succ n)) as [Hl Hp].
    rewrite Nat.add_0_r in Hl, Hp.
    destruct (servers_list env name (n_query w)) as [[|server0 rest]|e];
      simpl in Hl, Hp; try discriminate.
    rewrite Hp.
    destruct (IH fuel (record (ESleep 1)
                              (record (EQuery name (Ok (server0 :: rest))) w)))
      as (w' & Hrun & Hq & Hm).
    + simpl. rewrite Nat.add_succ_r in Hgone. exact Hgone.
    + intros i Hi. apply Nat.succ_lt_mono in Hi. specialize (Hbefore (S i) Hi).
      rewrite Nat.add_succ_r in Hbefore. exact Hbefore.
    + lia.
    + exists w'. split; [exact Hrun|]. simpl in Hq, Hm. split; [lia | exact Hm].
Qed.

(** X17: the waits of [vm_stop] and [vm_start] do not survive the VM
    vanishing.  If the VM is listed, still in the state waited out of, for
    the first [n] status queries of the wait and query number [n] finds no
    server, the wait raises [TypeError] at that query, for every fuel above
    [n]; nothing is sent to the remote side on the way. *)
Theorem power_waits_raise_when_vm_vanishes
        (env : Env) (name : string) (fuel n : nat) (w : World) :
  servers_list env name (n_query w + n) = Ok [] ->
  (n < fuel)%nat ->
  ((forall i, (i < n)%nat ->
              lists_vm (servers_list env name (n_query w + i)) = true /\
              lists_power false (servers_list env name (n_query w + i)) = false) ->
   exists w', vm_stop_wait env fuel name w = Raised TypeError w' /\
              n_query w' = (n_query w + S n)%nat /\ n_mut w' = n_mut w) /\
  ((forall i, (i < n)%nat ->
              lists_vm (servers_list env name (n_query w + i)) = true /\
              lists_power true (servers_list env name (n_query w + i)) = false) ->
   exists w', vm_start_wait env fuel name w = Raised TypeError w' /\
              n_query w' = (n_query w + S n)%nat /\ n_mut w' = n_mut w).
Proof.
  intros Hgone Hfuel. split; intros Hbefore.
  - exact (power_wait_vanishes env name false n fuel w Hgone Hbefore Hfuel).
  - exact (power_wait_vanishes env name true n fuel w Hgone Hbefore Hfuel).
Qed.

Lemma power_waits_raise_when_vm_vanishes_witness :
  exists w', vm_stop_wait Fake.lingering 3 "test-vm" world0 = Raised TypeError w' /\
             n_query w' = (n_query world0 + 3)%nat /\ n_mut w' = n_mut world0.
Proof.
  destruct (power_waits_raise_when_vm_vanishes Fake.lingering "test-vm" 3 2 world0)
    as [Hstop _]; [reflexivity | lia |].
  apply Hstop. intros i Hi.
  do 2 (destruct i as [|i]; [split; reflexivity|]). lia.
Defined.
